(** * promisify.js: a shallow embedding and its verified properties

    The development follows [src/promiseFns/promisify.js]: the two regular
    expressions, the object heap the reflection code walks (own properties,
    prototype links, descriptors), key discovery, eligibility, the
    class-likeness test, the adapter built by [promisifyFunction], and the
    completion callback built by [createResolver]. *)

From Stdlib Require Import ZArith Lia Bool Ascii String List DecimalString.
From stdpp Require Import list strings.

Open Scope string_scope.

(** ** Regular expressions

    The source uses two regular-expression literals.  They are embedded as
    regular-expression terms, matched by derivatives.  A JavaScript string
    is a sequence of code units; the model keeps 8-bit code units. *)

Module Regex.

Inductive re : Type :=
| Void
| Eps
| Cls (p : ascii -> bool)
| Seq (r1 r2 : re)
| Alt (r1 r2 : re)
| Star (r : re).

Definition Plus (r : re) : re := Seq r (Star r).

Fixpoint nullable (r : re) : bool :=
  match r with
  | Void => false
  | Eps => true
  | Cls _ => false
  | Seq r1 r2 => nullable r1 && nullable r2
  | Alt r1 r2 => nullable r1 || nullable r2
  | Star _ => true
  end.

Fixpoint deriv (c : ascii) (r : re) : re :=
  match r with
  | Void => Void
  | Eps => Void
  | Cls p => if p c then Eps else Void
  | Seq r1 r2 =>
      if nullable r1 then Alt (Seq (deriv c r1) r2) (deriv c r2)
      else Seq (deriv c r1) r2
  | Alt r1 r2 => Alt (deriv c r1) (deriv c r2)
  | Star r1 => Seq (deriv c r1) (Star r1)
  end.

(** [matches r s]: the whole of [s] is in the language of [r]
    (a pattern written [^r$]). *)
Fixpoint matches (r : re) (s : string) : bool :=
  match s with
  | EmptyString => nullable r
  | String c s' => matches (deriv c r) s'
  end.

Definition any : re := Cls (fun _ => true).

(** [test r s]: some substring of [s] is in the language of [r]
    (an unanchored pattern, as [RegExp.prototype.test] searches). *)
Definition test (r : re) (s : string) : bool :=
  matches (Seq (Star any) (Seq r (Star any))) s.

Definition chr (c : ascii) : re := Cls (fun x => Ascii.eqb x c).

Fixpoint lit (s : string) : re :=
  match s with
  | EmptyString => Eps
  | String c s' => Seq (chr c) (lit s')
  end.

End Regex.

(** Character classes of the two patterns. *)

Definition code (c : ascii) : nat := nat_of_ascii c.

Definition is_digit (c : ascii) : bool :=
  (48 <=? code c)%nat && (code c <=? 57)%nat.

(** [[a-z]] under the [i] flag: both cases of the ASCII letters. *)
Definition is_letter (c : ascii) : bool :=
  ((97 <=? code c)%nat && (code c <=? 122)%nat)
  || ((65 <=? code c)%nat && (code c <=? 90)%nat).

Definition is_ident_start (c : ascii) : bool :=
  is_letter c || Ascii.eqb c "$" || Ascii.eqb c "_".

Definition is_ident_part (c : ascii) : bool :=
  is_ident_start c || is_digit c.

(** [\s] on 8-bit code units: TAB, LF, VT, FF, CR, space, NBSP. *)
Definition is_space (c : ascii) : bool :=
  ((9 <=? code c)%nat && (code c <=? 13)%nat)
  || (code c =? 32)%nat || (code c =? 160)%nat.

(** [const IDENTIFIER_REGEX = /^[a-z$_][a-z$_0-9]*$/i;] *)
Definition IDENTIFIER_REGEX : Regex.re :=
  Regex.Seq (Regex.Cls is_ident_start) (Regex.Star (Regex.Cls is_ident_part)).

(** [const THIS_ASSIGNMENT_PATTERN = /this\s*\.\s*\S+\s*=/;] *)
Definition THIS_ASSIGNMENT_PATTERN : Regex.re :=
  let ws := Regex.Star (Regex.Cls is_space) in
  Regex.Seq (Regex.lit "this")
    (Regex.Seq ws
       (Regex.Seq (Regex.chr ".")
          (Regex.Seq ws
             (Regex.Seq (Regex.Plus (Regex.Cls (fun c => negb (is_space c))))
                (Regex.Seq ws (Regex.chr "=")))))).

(** [function isIdentifier(name) { return IDENTIFIER_REGEX.test(name) }] *)
Definition isIdentifier (name : string) : bool :=
  Regex.matches IDENTIFIER_REGEX name.

(** ** Values *)

Abbreviation loc := nat.

(** JavaScript values.  [VNum] carries the integer-valued numbers, [VNaN] is
    NaN; [VUseThis] is the module-private symbol [USE_THIS]; [VObj] is a
    reference into the heap. *)
Inductive value : Type :=
| VUndefined
| VNull
| VBool (b : bool)
| VNum (z : Z)
| VNaN
| VStr (s : string)
| VUseThis
| VObj (l : loc).

Definition value_eqb (a b : value) : bool :=
  match a, b with
  | VUndefined, VUndefined => true
  | VNull, VNull => true
  | VBool x, VBool y => Bool.eqb x y
  | VNum x, VNum y => Z.eqb x y
  | VStr x, VStr y => String.eqb x y
  | VUseThis, VUseThis => true
  | VObj x, VObj y => Nat.eqb x y
  | _, _ => false
  end.

(** ToBoolean: what [v ? a : b], [if (v)] and [v && w] test. *)
Definition toBoolean (v : value) : bool :=
  match v with
  | VUndefined | VNull | VNaN => false
  | VBool b => b
  | VNum z => negb (z =? 0)%Z
  | VStr s => negb (String.eqb s "")
  | VUseThis | VObj _ => true
  end.

(** ** The completion callback

<<
    function createResolver({ resolve, reject, multiArgs }) {
        if (multiArgs) {
            return (err, ...values) => err ? reject(err) : resolve(Bluebird.all(values));
        }
        return (err, value) => err ? reject(err) : resolve(value);
    }
>>
    The callback is a function of its argument list; a missing argument
    reads [undefined].  [resolve], [reject] and [Bluebird.all] belong to the
    future type, which the module receives from outside. *)

Definition arg (n : nat) (args : list value) : value :=
  nth n args VUndefined.

Section Resolver.
Context {R : Type}.
Variable resolve : value -> R.
Variable reject : value -> R.
Variable Bluebird_all : list value -> value.

Definition createResolver (multiArgs : bool) (args : list value) : R :=
  if multiArgs then
    let err := arg 0 args in
    let values := tail args in
    if toBoolean err then reject err else resolve (Bluebird_all values)
  else
    let err := arg 0 args in
    let value := arg 1 args in
    if toBoolean err then reject err else resolve value.
End Resolver.


(** ** Completions *)

Inductive exn : Type :=
| RangeError (msg : string)
| TypeError
| Thrown (v : value).

Inductive res (A : Type) : Type :=
| Ok (a : A)
| Err (e : exn).
Arguments Ok {A} a.
Arguments Err {A} e.

(** ** Objects and the heap *)

(** Property keys: strings, and the module-private symbol
    [IS_PROMISIFIED]. *)
Inductive pkey : Type :=
| PStr (s : string)
| IS_PROMISIFIED.

Definition pkey_eqb (a b : pkey) : bool :=
  match a, b with
  | PStr x, PStr y => String.eqb x y
  | IS_PROMISIFIED, IS_PROMISIFIED => true
  | _, _ => false
  end.

(** Property descriptors.  A data property has a value and a [writable]
    flag.  An accessor has an optional getter and may have a setter; a
    getter is modelled by what invoking it yields, and setters and getters
    leave the heap alone. *)
Inductive desc : Type :=
| Data (v : value) (writable : bool)
| Accessor (get : option (res value)) (set : bool).

(** State of a future, as far as this module can drive it. *)
Inductive fstate : Type :=
| Pending
| Fulfilled (v : value)
| Rejected (e : exn).

(** What calling a function object does.
    - [Native body]: a function from outside this module; [body this args]
      is its completion.
    - [Promisified fn context multiArgs dynamicLookupKey]: a function built
      by [promisifyFunction]; the four fields are the variables its closure
      captured ([dynamicLookupKey] is [None] when undefined).  [fn] and
      [context] are assigned by the function's body, so they are cells of
      the object.
    - [Resolver multiArgs future]: a callback built by [createResolver] for
      the future at [future]. *)
Inductive fcode : Type :=
| Native (body : value -> list value -> res value)
| Promisified (fn context : value) (multiArgs : bool)
    (dynamicLookupKey : option string)
| Resolver (multiArgs : bool) (future : loc).

Record object : Type := mkObject {
  props : list (pkey * desc);   (* own properties, in enumeration order *)
  proto : value;                (* [[Prototype]]: VNull or VObj *)
  extensible : bool;
  call : option fcode;          (* Some for callable objects *)
  source : string;              (* what fn + "" yields, for callables *)
  future : option fstate        (* Some for futures *)
}.

(** The heap lists the objects; a reference is an index.  Objects are listed
    so that a prototype precedes the objects inheriting from it (prototype
    chains are finite and acyclic); a [proto] field that does not precede
    its owner reads as null. *)
Abbreviation heap := (list object).

(** The realm's intrinsic objects sit at fixed references. *)
Definition ObjectPrototype : loc := 0.
Definition FunctionPrototype : loc := 1.
Definition ArrayPrototype : loc := 2.
Definition StringPrototype : loc := 3.
Definition NumberPrototype : loc := 4.
Definition BooleanPrototype : loc := 5.
Definition SymbolPrototype : loc := 6.

(** [const FORBIDDEN_PROTOTYPES = [Array.prototype, Function.prototype,
    Object.prototype];] with [includes] comparing references. *)
Definition FORBIDDEN_PROTOTYPES : list value :=
  [VObj ArrayPrototype; VObj FunctionPrototype; VObj ObjectPrototype].

Definition includes (l : list value) (v : value) : bool :=
  existsb (value_eqb v) l.

Fixpoint assoc {A : Type} (k : pkey) (l : list (pkey * A)) : option A :=
  match l with
  | [] => None
  | (k', a) :: l' => if pkey_eqb k k' then Some a else assoc k l'
  end.

Definition ownDesc (h : heap) (l : loc) (k : pkey) : option desc :=
  match h !! l with
  | Some o => assoc k (props o)
  | None => None
  end.

Fixpoint stringKeys (l : list (pkey * desc)) : list string :=
  match l with
  | [] => []
  | (PStr s, _) :: l' => s :: stringKeys l'
  | (IS_PROMISIFIED, _) :: l' => stringKeys l'
  end.

(** Decimal numeral of an index, for the own names of a string value. *)
Definition indexName (n : nat) : string :=
  NilEmpty.string_of_uint (Nat.to_uint n).

Fixpoint stringGet (s : string) (n : nat) : option ascii :=
  match s, n with
  | EmptyString, _ => None
  | String c _, O => Some c
  | String _ s', S n' => stringGet s' n'
  end.

Fixpoint indexOfName (fuel : nat) (k : string) : option nat :=
  match fuel with
  | O => None
  | S f => if String.eqb k (indexName f) then Some f else indexOfName f k
  end.

(** [Object.getOwnPropertyNames(v)]: a TypeError on undefined and null; the
    string-keyed own properties of an object; the indices and ["length"] of
    a string; nothing for the other primitives. *)
Definition getOwnPropertyNames (h : heap) (v : value) : res (list string) :=
  match v with
  | VUndefined | VNull => Err TypeError
  | VObj l => Ok (match h !! l with Some o => stringKeys (props o) | None => [] end)
  | VStr s => Ok (map indexName (seq 0 (String.length s)) ++ ["length"])%list
  | _ => Ok []
  end.

(** [Object.getOwnPropertyDescriptor(v, k)] for a string key. *)
Definition getOwnPropertyDescriptor (h : heap) (v : value) (k : string)
  : res (option desc) :=
  match v with
  | VUndefined | VNull => Err TypeError
  | VObj l => Ok (ownDesc h l (PStr k))
  | VStr s =>
      if String.eqb k "length" then
        Ok (Some (Data (VNum (Z.of_nat (String.length s))) false))
      else
        match indexOfName (String.length s) k with
        | Some i =>
            match stringGet s i with
            | Some c => Ok (Some (Data (VStr (String c EmptyString)) false))
            | None => Ok None
            end
        | None => Ok None
        end
  | _ => Ok None
  end.

(** [Object.getPrototypeOf(v)] for a value that passed the truthiness test
    of the discovery loop (undefined and null do not reach it). *)
Definition getPrototypeOf (h : heap) (v : value) : value :=
  match v with
  | VUndefined | VNull => VNull
  | VObj l =>
      match h !! l with
      | Some o =>
          match proto o with
          | VObj p => if (p <? l)%nat then VObj p else VNull
          | _ => VNull
          end
      | None => VNull
      end
  | VStr _ => VObj StringPrototype
  | VNum _ | VNaN => VObj NumberPrototype
  | VBool _ => VObj BooleanPrototype
  | VUseThis => VObj SymbolPrototype
  end.

(** A bound on the length of the prototype chain of a value. *)
Definition chainBound (v : value) : nat :=
  match v with
  | VUndefined | VNull => 0
  | VObj l => S l
  | _ => 8
  end.

Definition typeof_function (h : heap) (v : value) : bool :=
  match v with
  | VObj l =>
      match h !! l with
      | Some o => match call o with Some _ => true | None => false end
      | None => false
      end
  | _ => false
  end.

(** What reading through a descriptor yields. *)
Definition readDesc (d : desc) : res value :=
  match d with
  | Data v _ => Ok v
  | Accessor (Some r) _ => r
  | Accessor None _ => Ok VUndefined
  end.

(** Own descriptor of a value under any key, primitives included. *)
Definition ownDescOf (h : heap) (v : value) (k : pkey) : option desc :=
  match v with
  | VObj l => ownDesc h l k
  | _ =>
      match k with
      | PStr s =>
          match getOwnPropertyDescriptor h v s with
          | Ok d => d
          | Err _ => None
          end
      | IS_PROMISIFIED => None
      end
  end.

(** Closest descriptor of [k] along the prototype chain of [v]. *)
Fixpoint lookupChain (fuel : nat) (h : heap) (v : value) (k : pkey)
  : option desc :=
  match fuel with
  | O => None
  | S f =>
      match v with
      | VUndefined | VNull => None
      | _ =>
          match ownDescOf h v k with
          | Some d => Some d
          | None => lookupChain f h (getPrototypeOf h v) k
          end
      end
  end.

(** [v[k]]: a TypeError on undefined and null, else the closest property
    read through its descriptor, else undefined. *)
Definition Get (h : heap) (v : value) (k : pkey) : res value :=
  match v with
  | VUndefined | VNull => Err TypeError
  | _ =>
      match lookupChain (chainBound v) h v k with
      | Some d => readDesc d
      | None => Ok VUndefined
      end
  end.

(** ** Heap-passing computations *)

Definition M (A : Type) : Type := heap -> res A * heap.

Definition ret {A : Type} (a : A) : M A := fun h => (Ok a, h).

Definition throw {A : Type} (e : exn) : M A := fun h => (Err e, h).

Definition bind {A B : Type} (m : M A) (f : A -> M B) : M B :=
  fun h =>
    match m h with
    | (Ok a, h') => f a h'
    | (Err e, h') => (Err e, h')
    end.

(** A read that may throw and leaves the heap alone. *)
Definition lift {A : Type} (f : heap -> res A) : M A := fun h => (f h, h).

Notation "'let!' x ':=' m 'in' k" := (bind m (fun x => k))
  (at level 10, x name, m at level 100, k at level 200).
Notation "'run!' m 'in' k" := (bind m (fun _ => k))
  (at level 10, m at level 100, k at level 200).

Fixpoint forEach {A : Type} (l : list A) (body : A -> M unit) : M unit :=
  match l with
  | [] => ret tt
  | a :: l' => run! body a in forEach l' body
  end.

Definition alloc (o : object) : M loc :=
  fun h => (Ok (length h), (h ++ [o])%list).

(** ** Key discovery

<<
function inheritedDataKeys(obj) {
    let foundKeys = [];
    let visitedKeys = new Set();
    while (obj && !FORBIDDEN_PROTOTYPES.includes(obj)) {
        let keys;
        try { keys = Object.getOwnPropertyNames(obj); }
        catch (e) { return foundKeys; }
        for (const key of keys) {
            if (!visitedKeys.has(key)) {
                visitedKeys.add(key);
                let desc = Object.getOwnPropertyDescriptor(obj, key);
                if (desc != null && desc.get == null && desc.set == null) {
                    foundKeys.push(key);
                }
            }
        }
        obj = Object.getPrototypeOf(obj);
    }
    return foundKeys;
}
>> *)

Definition has (visited : list string) (key : string) : bool :=
  existsb (String.eqb key) visited.

(** [desc != null && desc.get == null && desc.set == null] *)
Definition isDataDesc (d : option desc) : bool :=
  match d with
  | None => false
  | Some (Data _ _) => true
  | Some (Accessor g s) =>
      match g with Some _ => false | None => negb s end
  end.

(** The [for (const key of keys)] loop; the state is
    [(foundKeys, visitedKeys)]. *)
Fixpoint scanKeys (h : heap) (obj : value) (keys : list string)
  (st : list string * list string) : list string * list string :=
  match keys with
  | [] => st
  | key :: rest =>
      let '(foundKeys, visitedKeys) := st in
      if has visitedKeys key then scanKeys h obj rest st
      else
        let visitedKeys := key :: visitedKeys in
        let d := match getOwnPropertyDescriptor h obj key with
                 | Ok d => d
                 | Err _ => None
                 end in
        if isDataDesc d
        then scanKeys h obj rest ((foundKeys ++ [key])%list, visitedKeys)
        else scanKeys h obj rest (foundKeys, visitedKeys)
  end.

(** The [while] loop, one link of the chain per unit of fuel. *)
Fixpoint inheritedDataKeys_loop (fuel : nat) (h : heap) (obj : value)
  (st : list string * list string) : list string :=
  match fuel with
  | O => fst st
  | S f =>
      if toBoolean obj && negb (includes FORBIDDEN_PROTOTYPES obj) then
        match getOwnPropertyNames h obj with
        | Err _ => fst st
        | Ok keys =>
            inheritedDataKeys_loop f h (getPrototypeOf h obj)
              (scanKeys h obj keys st)
        end
      else fst st
  end.

Definition inheritedDataKeys (h : heap) (obj : value) : list string :=
  inheritedDataKeys_loop (S (chainBound obj)) h obj ([], []).

(** ** Eligibility *)

(** [function isPromisified(fn) { return fn[IS_PROMISIFIED]; }] *)
Definition isPromisified (h : heap) (fn : value) : res value :=
  Get h fn IS_PROMISIFIED.

(** [desc.value] of a descriptor object. *)
Definition descValue (d : desc) : value :=
  match d with
  | Data v _ => v
  | Accessor _ _ => VUndefined
  end.

(** [desc.get || desc.set] *)
Definition hasGetOrSet (d : desc) : bool :=
  match d with
  | Data _ _ => false
  | Accessor g s => match g with Some _ => true | None => s end
  end.

(**
<<
function hasPromisified(obj, key, suffix) {
    let desc = Object.getOwnPropertyDescriptor(obj, key + suffix);
    if (desc == null) return false;
    if (desc.get || desc.set) return true;
    return isPromisified(desc.value);
}
>> *)
Definition hasPromisified (h : heap) (obj : value) (key suffix : string)
  : res value :=
  match getOwnPropertyDescriptor h obj (String.append key suffix) with
  | Err e => Err e
  | Ok None => Ok (VBool false)
  | Ok (Some d) =>
      if hasGetOrSet d then Ok (VBool true)
      else isPromisified h (descValue d)
  end.

(**
<<
function defaultFilter(name) {
    return isIdentifier(name) && name.charAt(0) !== "_" && name !== "constructor";
}
>> *)
Definition charAt0 (name : string) : string :=
  match name with
  | EmptyString => ""
  | String c _ => String c EmptyString
  end.

Definition defaultFilter (name : string) : bool :=
  isIdentifier name
  && negb (String.eqb (charAt0 name) "_")
  && negb (String.eqb name "constructor").

(** A caller's filter, called as [filter(key, fn, obj, passesFilter)]. *)
Definition filterFn := string -> value -> value -> bool -> value.

(**
<<
function shouldPromisify(key, suffix, obj, filter) {
    const fn = obj[key];
    if (typeof fn !== 'function') return false;
    if (isPromisified(fn) || hasPromisified(obj, key, suffix)) return false;
    let passesFilter = defaultFilter(key, fn, obj, true);
    passesFilter = filter ? filter(key, fn, obj, passesFilter) : passesFilter;
    if (!passesFilter) return false;
    return true;
}
>> *)
Definition shouldPromisify (h : heap) (key suffix : string) (obj : value)
  (filter : option filterFn) : res bool :=
  match Get h obj (PStr key) with
  | Err e => Err e
  | Ok fn =>
      if negb (typeof_function h fn) then Ok false
      else
        match isPromisified h fn with
        | Err e => Err e
        | Ok m =>
            if toBoolean m then Ok false
            else
              match hasPromisified h obj key suffix with
              | Err e => Err e
              | Ok p =>
                  if toBoolean p then Ok false
                  else
                    let passesFilter := defaultFilter key in
                    let passesFilter :=
                      match filter with
                      | Some f => toBoolean (f key fn obj passesFilter)
                      | None => passesFilter
                      end in
                    if negb passesFilter then Ok false else Ok true
              end
        end
  end.

(** [Array.prototype.filter] with a predicate that may throw. *)
Fixpoint filterKeys (p : string -> res bool) (keys : list string)
  : res (list string) :=
  match keys with
  | [] => Ok []
  | key :: rest =>
      match p key with
      | Err e => Err e
      | Ok b =>
          match filterKeys p rest with
          | Err e => Err e
          | Ok l => Ok (if b then key :: l else l)
          end
      end
  end.

(**
<<
    function getFunctionsToPromisify(obj, suffix, filter) {
        return inheritedDataKeys(obj).filter(key => shouldPromisify(key, suffix, obj, filter))
    }
>> *)
Definition getFunctionsToPromisify (h : heap) (obj : value) (suffix : string)
  (filter : option filterFn) : res (list string) :=
  filterKeys (fun key => shouldPromisify h key suffix obj filter)
    (inheritedDataKeys h obj).

(** ** Class-likeness

<<
function isClass(fn) {
    try {
        if (typeof fn === "function") {
            var keys = Object.getOwnPropertyNames(fn.prototype);
            let hasMethods = keys.length > 1;
            let hasMethodsOtherThanConstructor = keys.length > 0 && !(keys.length === 1 && keys[0] === 'constructor');
            let hasThisAssignmentAndStaticMethods = THIS_ASSIGNMENT_PATTERN.test(fn + "") && Object.getOwnPropertyNames(fn).length > 0;
            if (hasMethods || hasMethodsOtherThanConstructor || hasThisAssignmentAndStaticMethods) {
                return true;
            }
        }
        return false;
    } catch (e) {
        return false;
    }
}
>> *)

(** [fn + ""] for a callable. *)
Definition sourceText (h : heap) (fn : value) : string :=
  match fn with
  | VObj l => match h !! l with Some o => source o | None => "" end
  | _ => ""
  end.

Definition hasMethods (keys : list string) : bool :=
  (1 <? length keys)%nat.

Definition hasMethodsOtherThanConstructor (keys : list string) : bool :=
  (0 <? length keys)%nat
  && negb ((length keys =? 1)%nat
           && match keys with
              | k0 :: _ => String.eqb k0 "constructor"
              | [] => false
              end).

(** The body of the [try] block. *)
Definition isClass_try (h : heap) (fn : value) : res bool :=
  if typeof_function h fn then
    match Get h fn (PStr "prototype") with
    | Err e => Err e
    | Ok p =>
        match getOwnPropertyNames h p with
        | Err e => Err e
        | Ok keys =>
            if Regex.test THIS_ASSIGNMENT_PATTERN (sourceText h fn) then
              match getOwnPropertyNames h fn with
              | Err e => Err e
              | Ok statics =>
                  Ok (hasMethods keys || hasMethodsOtherThanConstructor keys
                      || (0 <? length statics)%nat)
              end
            else Ok (hasMethods keys || hasMethodsOtherThanConstructor keys)
        end
    end
  else Ok false.

Definition isClass (h : heap) (fn : value) : bool :=
  match isClass_try h fn with
  | Ok b => b
  | Err _ => false
  end.

(** ** Assignment [target[k] = v]

    The module is not in strict mode, so an assignment that cannot be
    carried out is dropped silently.  An own writable data property is
    updated in place; an own read-only or accessor property, and an
    inherited read-only or accessor property, block the assignment;
    otherwise an extensible object gets a new own property, listed last.
    Assigning on undefined or null is a TypeError; on another primitive
    nothing is stored. *)

Fixpoint updateAssoc (k : pkey) (d : desc) (l : list (pkey * desc))
  : list (pkey * desc) :=
  match l with
  | [] => []
  | (k', d') :: l' =>
      if pkey_eqb k k' then (k', d) :: l' else (k', d') :: updateAssoc k d l'
  end.

Definition withProps (o : object) (ps : list (pkey * desc)) : object :=
  mkObject ps (proto o) (extensible o) (call o) (source o) (future o).

Definition blocksSet (d : option desc) : bool :=
  match d with
  | Some (Data _ false) => true
  | Some (Accessor _ _) => true
  | _ => false
  end.

Definition setProp (target : value) (k : string) (v : value) : M unit :=
  fun h =>
    match target with
    | VUndefined | VNull => (Err TypeError, h)
    | VObj l =>
        match h !! l with
        | None => (Ok tt, h)
        | Some o =>
            match assoc (PStr k) (props o) with
            | Some (Data _ true) =>
                (Ok tt, <[l := withProps o (updateAssoc (PStr k) (Data v true) (props o))]> h)
            | Some _ => (Ok tt, h)
            | None =>
                let p := getPrototypeOf h target in
                if blocksSet (lookupChain (chainBound p) h p (PStr k)) then (Ok tt, h)
                else if extensible o then
                  (Ok tt, <[l := withProps o (props o ++ [(PStr k, Data v true)])%list]> h)
                else (Ok tt, h)
            end
        end
    | _ => (Ok tt, h)
    end.

(** ** The adapter

<<
    function promisifyFunction({ fn, context, multiArgs, dynamicLookupKey }) {
        let promisifiedFunction = function(...args) { ... }
        Object.defineProperty(promisifiedFunction, IS_PROMISIFIED, { enumerable: false, value: true });
        return promisifiedFunction;
    }
>>
    Evaluating the function expression creates the function object and the
    object at its [prototype] property; [defineProperty] adds the marker,
    read-only. *)

Definition promisifiedFunction_source : string :=
"function(...args) {

            if (context === USE_THIS) {
                context = this;
            }

            // dynamic lookup
            if (dynamicLookupKey) {
                fn = context[dynamicLookupKey];
            }

            return new Bluebird((resolve, reject) => {
                let resolver = createResolver({ resolve, reject, multiArgs });

                return fn.apply(context, [...args, resolver]);
            });
        }".

Definition promisifyFunction (fn context : value) (multiArgs : bool)
  (dynamicLookupKey : option string) : M value :=
  fun h =>
    let f := length h in
    let promisifiedFunction :=
      mkObject
        [ (PStr "length", Data (VNum 0) false);
          (PStr "name", Data (VStr "promisifiedFunction") false);
          (PStr "prototype", Data (VObj (S f)) true);
          (IS_PROMISIFIED, Data (VBool true) false) ]
        (VObj FunctionPrototype) true
        (Some (Promisified fn context multiArgs dynamicLookupKey))
        promisifiedFunction_source None in
    let prototypeObject :=
      mkObject [ (PStr "constructor", Data (VObj f) true) ]
        (VObj ObjectPrototype) true None "" None in
    (Ok (VObj f), (h ++ [promisifiedFunction; prototypeObject])%list).

(** ** Bulk conversion *)

(** A caller's [promisifier], called as [promisifier(obj[key], thunk)]; the
    thunk builds the default adapter when (and if) it is called. *)
Definition promisifierFn := value -> M value -> M value.

(**
<<
    function internalPromisifyAll(obj, suffix, filter, promisifier, multiArgs) {
        const functionKeys = getFunctionsToPromisify(obj, suffix);
        for (const key of functionKeys) {
            let promisified;
            if (promisifier) {
                promisified = promisifier(obj[key], () => {
                    return promisifyFunction({ fn: obj[key], context: USE_THIS, multiArgs, dynamicLookupKey: key });
                });
            }
            else {
                promisified = promisifyFunction({ fn: obj[key], context: USE_THIS, multiArgs, dynamicLookupKey: key });
            }
            obj[`${key}${suffix}`] = promisified;
        }
    }
>>
    [getFunctionsToPromisify] is called with two arguments, so its third
    parameter [filter] is undefined. *)

Definition defaultPromisified (obj : value) (key : string) (multiArgs : bool)
  : M value :=
  let! fn := lift (fun h => Get h obj (PStr key)) in
  promisifyFunction fn VUseThis multiArgs (Some key).

Definition installKey (obj : value) (suffix : string)
  (promisifier : option promisifierFn) (multiArgs : bool) (key : string)
  : M unit :=
  let! promisified :=
    match promisifier with
    | Some p =>
        let! fn := lift (fun h => Get h obj (PStr key)) in
        p fn (defaultPromisified obj key multiArgs)
    | None => defaultPromisified obj key multiArgs
    end in
  setProp obj (String.append key suffix) promisified.

Definition internalPromisifyAll (obj : value) (suffix : string)
  (filter : option filterFn) (promisifier : option promisifierFn)
  (multiArgs : bool) : M value :=
  let! functionKeys := lift (fun h => getFunctionsToPromisify h obj suffix None) in
  run! forEach functionKeys (installKey obj suffix promisifier multiArgs) in
  ret VUndefined.

(** A destructuring default [{ name = dflt }]: the default stands in for
    undefined, and for undefined only. *)
Definition orDefault (v dflt : value) : value :=
  match v with
  | VUndefined => dflt
  | _ => v
  end.

(** The options object handed to [promisifyAll].  [suffix] is the value the
    caller passed, undefined when absent.  [multiArgs] is the truthiness of
    the option, which is all the module tests (absent reads as false, as
    the default does); [filter] and [promisifier] are [None] when absent,
    undefined or null, which the module does not tell apart. *)
Record options : Type := mkOptions {
  context : value;
  multiArgs : bool;
  suffix : value;
  filter : option filterFn;
  promisifier : option promisifierFn
}.

Definition defaultOptions : options :=
  mkOptions VNull false (VStr "Async") None None.

(**
<<
    Bluebird.promisifyAll = function promisifyAll(obj, { context = null, multiArgs = false, suffix = "Async", filter = null, promisifier = null } = {}) {
        if (typeof suffix !== 'string' || !isIdentifier(suffix)) {
            throw new RangeError("The suffix should be a string matching [a-z$_][a-z$_0-9]*");
        }
        const keys = inheritedDataKeys(obj);
        for (const key of keys) {
            const fn = obj[key];
            if (key !== 'constructor' && isClass(fn)) {
                internalPromisifyAll(fn.prototype, suffix, filter, promisifier, multiArgs);
                internalPromisifyAll(fn, suffix, filter, promisifier, multiArgs);
            }
        }
        return internalPromisifyAll(obj, suffix, filter, promisifier, multiArgs);
    };
>> *)

(** The test of line 30, on the heap of the moment. *)
Definition recursesInto (h : heap) (key : string) (fn : value) : bool :=
  negb (String.eqb key "constructor") && isClass h fn.

Definition promisifyClass (obj : value) (suffix : string)
  (filter : option filterFn) (promisifier : option promisifierFn)
  (multiArgs : bool) (key : string) : M unit :=
  let! fn := lift (fun h => Get h obj (PStr key)) in
  let! isCls := lift (fun h => Ok (recursesInto h key fn)) in
  if isCls then
    let! p := lift (fun h => Get h fn (PStr "prototype")) in
    run! internalPromisifyAll p suffix filter promisifier multiArgs in
    run! internalPromisifyAll fn suffix filter promisifier multiArgs in
    ret tt
  else ret tt.

Definition suffix_message : string :=
  "The suffix should be a string matching [a-z$_][a-z$_0-9]*".

Definition promisifyAll (obj : value) (opts : options) : M value :=
  match orDefault (suffix opts) (VStr "Async") with
  | VStr sfx =>
      if isIdentifier sfx then
        let! keys := lift (fun h => Ok (inheritedDataKeys h obj)) in
        run! forEach keys
               (promisifyClass obj sfx (filter opts) (promisifier opts)
                  (multiArgs opts)) in
        internalPromisifyAll obj sfx (filter opts) (promisifier opts)
          (multiArgs opts)
      else throw (RangeError suffix_message)
  | _ => throw (RangeError suffix_message)
  end.

(**
<<
    Bluebird.promisify = function promisify(fn, { context = USE_THIS, multiArgs = false } = {}) {
        return promisifyFunction({ fn, context, multiArgs });
    };
>> *)
Definition promisify (fn context : value) (multiArgs : bool) : M value :=
  promisifyFunction fn (orDefault context VUseThis) multiArgs None.

(** ** Invoking an adapter *)

Definition withCall (o : object) (c : fcode) : object :=
  mkObject (props o) (proto o) (extensible o) (Some c) (source o) (future o).

Definition withFuture (o : object) (s : fstate) : object :=
  mkObject (props o) (proto o) (extensible o) (call o) (source o) (Some s).

(** A future settles once. *)
Definition settle (p : loc) (s : fstate) : M unit :=
  fun h =>
    match h !! p with
    | Some o =>
        match future o with
        | Some Pending => (Ok tt, <[p := withFuture o s]> h)
        | _ => (Ok tt, h)
        end
    | None => (Ok tt, h)
    end.



Definition resolver_source (multiArgs : bool) : string :=
  if multiArgs
  then "(err, ...values) => err ? reject(err) : resolve(Bluebird.all(values))"
  else "(err, value) => err ? reject(err) : resolve(value)".

(** The arrow function [createResolver] returns, as an object. *)
Definition resolverObject (multiArgs : bool) (p : loc) : object :=
  mkObject
    [ (PStr "length", Data (VNum (if multiArgs then 1 else 2)) false);
      (PStr "name", Data (VStr "") false) ]
    (VObj FunctionPrototype) true (Some (Resolver multiArgs p))
    (resolver_source multiArgs) None.

(** Lines 62 to 69 of the adapter's body: fix the context, look the function
    up, both by assignment to the captured variables.  The result is the
    pair [(fn, context)] that line 74 applies. *)
Definition bindCall (g : loc) (this : value) : M (value * value) :=
  fun h =>
    match h !! g with
    | Some o =>
        match call o with
        | Some (Promisified fn context multiArgs dynamicLookupKey) =>
            let context := if value_eqb context VUseThis then this else context in
            match dynamicLookupKey with
            | Some key =>
                if negb (String.eqb key "") then
                  match Get h context (PStr key) with
                  | Ok fn =>
                      (Ok (fn, context),
                       <[g := withCall o (Promisified fn context multiArgs dynamicLookupKey)]> h)
                  | Err e =>
                      (Err e,
                       <[g := withCall o (Promisified fn context multiArgs dynamicLookupKey)]> h)
                  end
                else
                  (Ok (fn, context),
                   <[g := withCall o (Promisified fn context multiArgs dynamicLookupKey)]> h)
            | None =>
                (Ok (fn, context),
                 <[g := withCall o (Promisified fn context multiArgs dynamicLookupKey)]> h)
            end
        | _ => (Err TypeError, h)
        end
    | None => (Err TypeError, h)
    end.

Definition adapterMultiArgs (h : heap) (g : loc) : bool :=
  match h !! g with
  | Some o =>
      match call o with
      | Some (Promisified _ _ m _) => m
      | _ => false
      end
  | None => false
  end.

Definition stack_message : string := "Maximum call stack size exceeded".

(** Own properties of a String wrapper: the characters by index. *)
Fixpoint indexProps (s : string) (n : nat) : list (pkey * desc) :=
  match s with
  | EmptyString => []
  | String c s' =>
      (PStr (indexName n), Data (VStr (String c EmptyString)) false)
      :: indexProps s' (S n)
  end.

(** [Object(v)] for a primitive [v] other than undefined and null. *)
Definition wrapperObject (v : value) : object :=
  match v with
  | VStr s =>
      mkObject
        (indexProps s 0 ++
         [(PStr "length", Data (VNum (Z.of_nat (String.length s))) false)])%list
        (VObj StringPrototype) true None "" None
  | VNum _ | VNaN => mkObject [] (VObj NumberPrototype) true None "" None
  | VBool _ => mkObject [] (VObj BooleanPrototype) true None "" None
  | _ => mkObject [] (VObj SymbolPrototype) true None "" None
  end.

(** The [this] binding of a function that is not strict, as the adapter is
    (the module has no ["use strict"]): undefined and null become the
    global object, another primitive is wrapped. *)
Definition thisBinding (globalThis this : value) : M value :=
  match this with
  | VUndefined | VNull => ret globalThis
  | VObj _ => ret this
  | _ => let! w := alloc (wrapperObject this) in ret (VObj w)
  end.

Section Invocation.

(** [Bluebird.all], the array-combination primitive of the future type. *)
Variable Bluebird_all : list value -> value.

(** [new Bluebird(executor)].  The class is the module's parameter; what it
    does with the executor is the class's business, so it is a parameter
    here too. *)
Variable Bluebird_new : (loc -> M value) -> M value.

(** The global object. *)
Variable globalThis : value.

(** [f.apply(this, args)].  A callee that is not callable is a TypeError.
    One unit of fuel is one frame of the call stack.  A function from
    outside the module is given the receiver as passed, its own binding
    rule being part of its [body]; the adapter binds it with
    [thisBinding]. *)
Fixpoint invoke (fuel : nat) (f : value) (this : value) (args : list value)
  : M value :=
  match fuel with
  | O => throw (RangeError stack_message)
  | S fuel' =>
      fun h =>
        match f with
        | VObj l =>
            match h !! l with
            | Some o =>
                match call o with
                | None => (Err TypeError, h)
                | Some (Native body) => (body this args, h)
                | Some (Resolver multiArgs p) =>
                    (run! createResolver
                       (fun v => settle p (Fulfilled v))
                       (fun e => settle p (Rejected (Thrown e)))
                       Bluebird_all multiArgs args in
                     ret VUndefined) h
                | Some (Promisified _ _ _ _) =>
                    (let! this := thisBinding globalThis this in
                     let! fc := bindCall l this in
                     let! m := lift (fun h => Ok (adapterMultiArgs h l)) in
                     Bluebird_new (fun p =>
                       let! resolver := alloc (resolverObject m p) in
                       invoke fuel' (fst fc) (snd fc)
                         (args ++ [VObj resolver])%list)) h
                end
            | None => (Err TypeError, h)
            end
        | _ => (Err TypeError, h)
        end
  end.

End Invocation.

(** ** Sample heaps *)

Definition plainObject (ps : list (pkey * desc)) (p : value) : object :=
  mkObject ps p true None "" None.

Definition nativeFunction (ps : list (pkey * desc)) (src : string)
  (body : value -> list value -> res value) : object :=
  mkObject ps (VObj FunctionPrototype) true (Some (Native body)) src None.

Definition method (name : string) (l : loc) : pkey * desc :=
  (PStr name, Data (VObj l) true).

(** The seven intrinsic objects, without their built-in properties. *)
Definition realm : heap :=
  [ plainObject [] VNull;
    nativeFunction [] "function () { [native code] }" (fun _ _ => Ok VUndefined);
    plainObject [] (VObj ObjectPrototype);
    plainObject [] (VObj ObjectPrototype);
    plainObject [] (VObj ObjectPrototype);
    plainObject [] (VObj ObjectPrototype);
    plainObject [] (VObj ObjectPrototype) ].

Definition returns_undefined : value -> list value -> res value :=
  fun _ _ => Ok VUndefined.

(** How a completion callback settles its future. *)
Inductive settlement : Type :=
| ResolvedWith (v : value)
| RejectedWith (v : value).


(** [{}]: an empty object at reference 7. *)
Definition heap_empty_object : heap :=
  (realm ++ [plainObject [] (VObj ObjectPrototype)])%list.

(** [{ foo: function (cb) {...} }]: the function at 7, the object at 8. *)
Definition heap_foo : heap :=
  (realm ++
   [ nativeFunction [] "function (cb) { cb(null, 1) }" returns_undefined;
     plainObject [method "foo" 7] (VObj ObjectPrototype) ])%list.

Definition filter_rejects_all : filterFn := fun _ _ _ _ => VBool false.

Definition options_with_filter (f : filterFn) : options :=
  mkOptions VNull false (VStr "Async") (Some f) None.

(** A function [f] at 7 and two receivers [a] at 8 and [b] at 9;
    [g = promisify(f)] is then built at 10. *)
Definition heap_two_receivers : heap :=
  (realm ++
   [ nativeFunction [] "function (cb) { cb(null, this) }" returns_undefined;
     plainObject [] (VObj ObjectPrototype);
     plainObject [] (VObj ObjectPrototype) ])%list.

Definition heap_two_receivers_promisified : heap :=
  snd (promisify (VObj 7) VUndefined false heap_two_receivers).

(** A base class: [Base.prototype] at 8 with method [foo] at 7, and an
    instance [a] at 9.  After [promisifyAll(Base.prototype)] the adapter
    [fooAsync] is at 10.  Then a subclass is defined: [Sub.prototype] at 13
    inherits from [Base.prototype] and overrides [foo] with the function at
    12; [s] at 14 is an instance of the subclass. *)
Definition heap_base : heap :=
  (realm ++
   [ nativeFunction [] "function (cb) { cb(null, 'base') }" returns_undefined;
     plainObject [method "foo" 7] (VObj ObjectPrototype);
     plainObject [] (VObj 8) ])%list.

Definition heap_base_converted : heap :=
  snd (promisifyAll (VObj 8) defaultOptions heap_base).

Definition heap_sub : heap :=
  (heap_base_converted ++
   [ nativeFunction [] "function (cb) { cb(null, 'sub') }" returns_undefined;
     plainObject [method "foo" 12] (VObj 8);
     plainObject [] (VObj 13) ])%list.








(** A base object at 8 with method [m] (the function at 7) and accessor
    [size]; a derived object at 10 inheriting from it, with its own [m]
    (the function at 9) and a data property [size]. *)
Definition heap_derived : heap :=
  (realm ++
   [ nativeFunction [] "function (cb) { cb(null, 'base') }" returns_undefined;
     plainObject [method "m" 7; (PStr "size", Accessor (Some (Ok (VNum 0))) false)]
       (VObj ObjectPrototype);
     nativeFunction [] "function (cb) { cb(null, 'derived') }" returns_undefined;
     plainObject [method "m" 9] (VObj 8) ])%list.

(** Class-likeness in the words of the specification: the value is
    invocable, and (a) its prototype has more than one own name, or (b) its
    prototype has an own name other than ["constructor"], or (c) its source
    text matches the this-assignment pattern and it has an own name. *)
Definition classLike (h : heap) (fn : value) : Prop :=
  typeof_function h fn = true /\
  exists p keys,
    Get h fn (PStr "prototype") = Ok p /\
    getOwnPropertyNames h p = Ok keys /\
    (1 < length keys \/
     (exists k, k ∈ keys /\ k <> "constructor") \/
     (Regex.test THIS_ASSIGNMENT_PATTERN (sourceText h fn) = true /\
      exists statics,
        getOwnPropertyNames h fn = Ok statics /\ 0 < length statics)).

(** An object at 13 with two function-valued properties: [K] (at 7), whose
    prototype (at 8) has the methods [constructor] and [run] and which has
    a static function [create] (at 10); and [util] (at 11), a plain function
    whose prototype (at 12) has only [constructor]. *)
Definition heap_class : heap :=
  (realm ++
   [ nativeFunction
       [ (PStr "length", Data (VNum 0) false);
         (PStr "name", Data (VStr "K") false);
         (PStr "prototype", Data (VObj 8) false);
         method "create" 10 ]
       "class K { run(cb) { cb(null, 1) } static create(cb) { cb(null, new K) } }"
       returns_undefined;
     plainObject [method "constructor" 7; method "run" 9] (VObj ObjectPrototype);
     nativeFunction [] "run(cb) { cb(null, 1) }" returns_undefined;
     nativeFunction [] "create(cb) { cb(null, new K) }" returns_undefined;
     nativeFunction
       [ (PStr "length", Data (VNum 1) false);
         (PStr "name", Data (VStr "util") false);
         (PStr "prototype", Data (VObj 12) true) ]
       "function util(cb) { cb(null, 2) }" returns_undefined;
     plainObject [method "constructor" 11] (VObj ObjectPrototype);
     plainObject [method "K" 7; method "util" 11] (VObj ObjectPrototype) ])%list.


(** A promisifier that hands back the function it was given:
    [(fn, defaultPromisifier) => fn]. *)
Definition promisifier_identity : promisifierFn := fun fn _ => ret fn.

Definition options_with_promisifier (p : promisifierFn) : options :=
  mkOptions VNull false (VStr "Async") None (Some p).

(** ** Notions used to state the frame and idempotence properties *)

(** The assignment [obj[k] = v] is dropped: [setProp] leaves the heap as it
    is, whatever [v]. *)
Definition setBlocked (h : heap) (obj : value) (k : string) : bool :=
  match obj with
  | VObj l =>
      match h !! l with
      | None => true
      | Some o =>
          match assoc (PStr k) (props o) with
          | Some (Data _ true) => false
          | Some _ => true
          | None =>
              let p := getPrototypeOf h obj in
              blocksSet (lookupChain (chainBound p) h p (PStr k))
              || negb (extensible o)
          end
      end
  | _ => true
  end.

(** An object built by [promisifyFunction]: callable, with the marker. *)
Definition adapterObject (o : object) : Prop :=
  (exists fn ctx m key, call o = Some (Promisified fn ctx m key)) /\
  assoc IS_PROMISIFIED (props o) = Some (Data (VBool true) false).

Definition adapterAt (h : heap) (v : value) : Prop :=
  exists a o, v = VObj a /\ h !! a = Some o /\ adapterObject o.

(** The adapter bulk conversion builds for [key]: it has no context of its
    own and looks [key] up on the context of the call. *)
Definition keyedAdapter (key : string) (o : object) : Prop :=
  adapterObject o /\
  exists fn m, call o = Some (Promisified fn VUseThis m (Some key)).

(** Everything of an object but its properties. *)
Definition sameMeta (o o' : object) : Prop :=
  proto o' = proto o /\ extensible o' = extensible o /\ call o' = call o /\
  source o' = source o /\ future o' = future o.




(** The objects a conversion pass allocates: adapters, and the objects at
    their [prototype] property. *)
Definition freshObject (o : object) : Prop :=
  adapterObject o \/
  (call o = None /\ assoc IS_PROMISIFIED (props o) = None /\
   proto o = VObj ObjectPrototype).

(** Property [k] of the target was assigned by the pass started in [h0]:
    [k] is [key ++ sfx] for a key eligible in [h0] whose assignment was not
    blocked, and it holds the adapter the pass built for [key]. *)
Definition installed (sfx : string) (obj : value) (h0 hc : heap) (k : pkey)
  (dc : option desc) : Prop :=
  exists key a oa,
    k = PStr (String.append key sfx) /\
    shouldPromisify h0 key sfx obj None = Ok true /\
    setBlocked h0 obj (String.append key sfx) = false /\
    dc = Some (Data (VObj a) true) /\
    length h0 <= a /\ hc !! a = Some oa /\ keyedAdapter key oa.

(** State of a pass over [obj] started in [h0], without a promisifier:
    the heap has grown by fresh objects; the objects of [h0] other than the
    target are untouched; the target has kept everything but its
    properties, each of which is as in [h0] or [installed]. *)
Definition passInv (sfx : string) (obj : value) (h0 hc : heap) : Prop :=
  length h0 <= length hc /\
  (forall l o, h0 !! l = Some o -> obj <> VObj l -> hc !! l = Some o) /\
  (forall i o, length h0 <= i -> hc !! i = Some o -> freshObject o) /\
  (forall l o0,
      obj = VObj l -> h0 !! l = Some o0 ->
      exists oc,
        hc !! l = Some oc /\ sameMeta o0 oc /\
        forall k,
          assoc k (props oc) = assoc k (props o0) \/
          installed sfx obj h0 hc k (assoc k (props oc))).

(** A function [F] at 7 whose [prototype] is the object at 10 and which has
    a static function [util] (at 9); the object at 10 is empty and inherits
    from the object at 8, whose property [F] is the function. *)
Definition heap_alias : heap :=
  (realm ++
   [ nativeFunction
       [ (PStr "prototype", Data (VObj 10) true); method "util" 9 ]
       "function F() {}" returns_undefined;
     plainObject [method "F" 7] (VObj ObjectPrototype);
     nativeFunction [] "function (cb) { cb(null, 1) }" returns_undefined;
     plainObject [] (VObj 8) ])%list.

(** Key [key] was handled by the pass started in [h0]: its assignment was
    dropped, or the target holds its adapter. *)
Definition doneOk (sfx : string) (obj : value) (h0 hc : heap) (key : string)
  : Prop :=
  setBlocked h0 obj (String.append key sfx) = true \/
  exists l oc,
    obj = VObj l /\ hc !! l = Some oc /\
    installed sfx obj h0 hc (PStr (String.append key sfx))
      (assoc (PStr (String.append key sfx)) (props oc)).


(** The targets of the conversion passes that one step of the class loop
    of [promisifyAll] starts in [h] for [key]: none, or [fn.prototype] and
    [fn]. *)
Definition classTargets (h : heap) (obj : value) (key : string)
  : list value :=
  match Get h obj (PStr key) with
  | Ok fn =>
      if recursesInto h key fn then
        match Get h fn (PStr "prototype") with
        | Ok p => [p; fn]
        | Err _ => []
        end
      else []
  | Err _ => []
  end.

(** The targets of the class loop over [keys], each step taken in the heap
    the steps before it left. *)
Fixpoint loopTargets (obj : value) (sfx : string) (flt : option filterFn)
  (pf : option promisifierFn) (m : bool) (keys : list string) (h : heap)
  : list value :=
  match keys with
  | [] => []
  | key :: rest =>
      (classTargets h obj key ++
       match promisifyClass obj sfx flt pf m key h with
       | (Ok _, h') => loopTargets obj sfx flt pf m rest h'
       | (Err _, _) => []
       end)%list
  end.

(** The targets a call [promisifyAll(obj, opts)] started in [h] converts,
    in order: those of the class loop, then [obj]. *)
Definition promisifyAllTargets (obj : value) (opts : options) (h : heap)
  : list value :=
  match orDefault (suffix opts) (VStr "Async") with
  | VStr sfx =>
      (loopTargets obj sfx (filter opts) (promisifier opts) (multiArgs opts)
         (inheritedDataKeys h obj) h ++ [obj])%list
  | _ => []
  end.

(** Every object among the targets [ts2] is an object of [h] and is among
    the targets [ts1]. *)
Definition revisits (h : heap) (ts1 ts2 : list value) : bool :=
  forallb
    (fun t =>
       match t with
       | VObj l => (l <? length h)%nat && existsb (value_eqb t) ts1
       | _ => true
       end)
    ts2.



(** Conversion passes over a list of targets, without a promisifier: each
    one completed ([converted]), or whatever their completions
    ([visited]). *)
Inductive converted (sfx : string) (m : bool)
  : heap -> list value -> heap -> Prop :=
| converted_nil (h : heap) : converted sfx m h [] h
| converted_cons (h h1 h2 : heap) (t : value) (ts : list value) (v : value) :
    internalPromisifyAll t sfx None None m h = (Ok v, h1) ->
    converted sfx m h1 ts h2 ->
    converted sfx m h (t :: ts) h2.

Inductive visited (sfx : string) (m : bool)
  : heap -> list value -> heap -> Prop :=
| visited_nil (h : heap) : visited sfx m h [] h
| visited_cons (h h1 h2 : heap) (t : value) (ts : list value)
    (r : res value) :
    internalPromisifyAll t sfx None None m h = (r, h1) ->
    visited sfx m h1 ts h2 ->
    visited sfx m h (t :: ts) h2.

(** ** Notions used to state further properties *)

Fixpoint allChars (p : ascii -> bool) (s : string) : bool :=
  match s with
  | EmptyString => true
  | String c s' => p c && allChars p s'
  end.

(** Non-empty, an identifier start followed by identifier parts. *)
Definition identifierShaped (s : string) : bool :=
  match s with
  | EmptyString => false
  | String c rest => is_ident_start c && allChars is_ident_part rest
  end.

(** One conversion pass without a promisifier, and what it leaves alone
    when discovery finds no key. *)
Definition passStep (sfx : string) (h h1 : heap) : Prop :=
  exists obj,
    passInv sfx obj h h1 /\ (inheritedDataKeys h obj = [] -> h1 = h).

(** A sequence of passes, as [promisifyAll] runs them. *)
Inductive passes (sfx : string) : heap -> heap -> Prop :=
| passes_nil (h : heap) : passes sfx h h
| passes_cons (h h1 h2 : heap) :
    passStep sfx h h1 -> passes sfx h1 h2 -> passes sfx h h2.

(** [{ foo: function, fooAsync: undefined }]: the function at 7, the
    object at 8. *)
Definition heap_foo_undefined : heap :=
  (realm ++
   [ nativeFunction [] "function (cb) { cb(null, 1) }" returns_undefined;
     plainObject [method "foo" 7; (PStr "fooAsync", Data VUndefined true)]
       (VObj ObjectPrototype) ])%list.

(** An adapter with the fixed context [a] (the object at 8), as
    [promisify(f, {context: a})] builds it at 10. *)
Definition heap_fixed_context : heap :=
  snd (promisify (VObj 7) (VObj 8) false heap_two_receivers).




(** * Properties *)

(** ** The completion callback *)

(** C1, as stated, fails: an error argument that is neither null nor
    undefined but falsy (here the number 0) does not reject the future; the
    callback resolves it with the first value. *)
Lemma createResolver_falsy_error_resolves :
  VNum 0 <> VNull /\ VNum 0 <> VUndefined /\
  createResolver ResolvedWith RejectedWith (fun _ => VNull) false
    [VNum 0; VNum 5] = ResolvedWith (VNum 5) /\
  createResolver ResolvedWith RejectedWith (fun _ => VNull) false
    [VNum 0; VNum 5] <> RejectedWith (VNum 0).
Proof. repeat split; discriminate. Qed.

(** C1 (amended): the callback called with [(err, ...values)] rejects with
    exactly [err] when [err] is truthy, whatever the values; when [err] is
    falsy it resolves with the first value if [multiArgs] is false, and with
    [Bluebird.all] of the whole ordered list of values if it is true. *)
Theorem createResolver_settles :
  forall (R : Type) (resolve reject : value -> R)
         (Bluebird_all : list value -> value)
         (multiArgs : bool) (err : value) (values : list value),
    (toBoolean err = true ->
     createResolver resolve reject Bluebird_all multiArgs (err :: values)
     = reject err) /\
    (toBoolean err = false -> multiArgs = false ->
     createResolver resolve reject Bluebird_all multiArgs (err :: values)
     = resolve (nth 0 values VUndefined)) /\
    (toBoolean err = false -> multiArgs = true ->
     createResolver resolve reject Bluebird_all multiArgs (err :: values)
     = resolve (Bluebird_all values)).
Proof.
  intros R resolve reject all m err values.
  unfold createResolver, arg; simpl.
  split; [| split].
  - intros Herr. destruct m; rewrite Herr; reflexivity.
  - intros Herr ->. rewrite Herr. reflexivity.
  - intros Herr ->. rewrite Herr. reflexivity.
Qed.

Lemma createResolver_settles_witness :
  createResolver ResolvedWith RejectedWith (fun _ => VNull) true
    [VStr "boom"; VNum 1; VNum 2] = RejectedWith (VStr "boom").
Proof.
  apply (proj1 (createResolver_settles settlement ResolvedWith RejectedWith
                  (fun _ => VNull) true (VStr "boom") [VNum 1; VNum 2])).
  reflexivity.
Defined.

(** ** The execution context of an adapter *)

Lemma lookup_insert_same (h : heap) (l : loc) (o o' : object) :
  h !! l = Some o -> <[l := o']> h !! l = Some o'.
Proof.
  intros H. apply list_lookup_insert_eq. eapply lookup_lt_Some; eassumption.
Qed.

(** An adapter built with a fixed context uses it on every call. *)
Lemma bindCall_fixed_context (h : heap) (g : loc) (o : object)
  (fn ctx this : value) (m : bool) :
  h !! g = Some o ->
  call o = Some (Promisified fn ctx m None) ->
  value_eqb ctx VUseThis = false ->
  bindCall g this h
  = (Ok (fn, ctx), <[g := withCall o (Promisified fn ctx m None)]> h).
Proof.
  intros Hg Hc Hctx. unfold bindCall. rewrite Hg, Hc, Hctx. reflexivity.
Qed.

(** X16: The first call of an adapter built with the sentinel assigns its
    receiver to the captured variable [context]; the sentinel is gone, and
    every later call runs under the first receiver. *)
Lemma bindCall_first_receiver_sticks (h : heap) (g : loc) (o : object)
  (fn this1 this2 : value) (m : bool) :
  h !! g = Some o ->
  call o = Some (Promisified fn VUseThis m None) ->
  value_eqb this1 VUseThis = false ->
  fst (bindCall g this1 h) = Ok (fn, this1) /\
  fst (bindCall g this2 (snd (bindCall g this1 h))) = Ok (fn, this1).
Proof.
  intros Hg Hc H1. unfold bindCall at 1 3. rewrite Hg, Hc. simpl.
  split; [reflexivity|].
  unfold bindCall.
  rewrite (lookup_insert_same _ _ _ _ Hg). simpl. rewrite H1. reflexivity.
Qed.

(** C2, at a failing input: [g = promisify(f)] with the default context.
    Called through [a], it applies [f] to [a].  Called then through [b], it
    applies [f] to [a] again, not to [b]; a fresh [g] called through [b]
    applies [f] to [b]. *)
Theorem promisify_second_call_uses_first_receiver :
  fst (bindCall 10 (VObj 8) heap_two_receivers_promisified)
  = Ok (VObj 7, VObj 8) /\
  fst (bindCall 10 (VObj 9)
         (snd (bindCall 10 (VObj 8) heap_two_receivers_promisified)))
  = Ok (VObj 7, VObj 8) /\
  fst (bindCall 10 (VObj 9) heap_two_receivers_promisified)
  = Ok (VObj 7, VObj 9).
Proof. repeat split; vm_compute; reflexivity. Qed.

(** ** Dynamic lookup *)

(** C4, at a failing input: [fooAsync] is installed on [Base.prototype],
    and a subclass then overrides [foo].  On a fresh adapter, a call through
    the subclass instance [s] dispatches to the override.  But after one
    call through the base instance [a], the call through [s] looks [foo] up
    on [a] and dispatches to the base implementation, with receiver [a]. *)
Theorem fooAsync_after_base_call_misses_override :
  Get heap_sub (VObj 14) (PStr "fooAsync") = Ok (VObj 10) /\
  Get heap_sub (VObj 14) (PStr "foo") = Ok (VObj 12) /\
  fst (bindCall 10 (VObj 14) heap_sub) = Ok (VObj 12, VObj 14) /\
  fst (bindCall 10 (VObj 9) heap_sub) = Ok (VObj 7, VObj 9) /\
  fst (bindCall 10 (VObj 14) (snd (bindCall 10 (VObj 9) heap_sub)))
  = Ok (VObj 7, VObj 9).
Proof. repeat split; vm_compute; reflexivity. Qed.


(** ** The filter option *)

(** [internalPromisifyAll] never reads its [filter] parameter. *)
Lemma internalPromisifyAll_ignores_filter (obj : value) (sfx : string)
  (f1 f2 : option filterFn) (p : option promisifierFn) (m : bool) :
  internalPromisifyAll obj sfx f1 p m = internalPromisifyAll obj sfx f2 p m.
Proof. reflexivity. Qed.

(** C3, at a failing input: [promisifyAll({foo}, {filter: () => false})].
    The filter returns false for [foo], whose default verdict is true, and
    would make [shouldPromisify] refuse it; yet [fooAsync] is installed. *)
Theorem promisifyAll_filter_not_consulted :
  shouldPromisify heap_foo "foo" "Async" (VObj 8) (Some filter_rejects_all)
  = Ok false /\
  fst (promisifyAll (VObj 8) (options_with_filter filter_rejects_all) heap_foo)
  = Ok VUndefined /\
  getOwnPropertyNames
    (snd (promisifyAll (VObj 8) (options_with_filter filter_rejects_all) heap_foo))
    (VObj 8)
  = Ok ["foo"; "fooAsync"].
Proof. repeat split; vm_compute; reflexivity. Qed.

(** ** Suffix validation and the result of [promisifyAll] *)

(** With a string suffix the default plays no part. *)
Lemma promisifyAll_string (obj : value) (opts : options) (sfx : string) :
  suffix opts = VStr sfx ->
  promisifyAll obj opts
  = if isIdentifier sfx then
      let! keys := lift (fun h => Ok (inheritedDataKeys h obj)) in
      run! forEach keys
             (promisifyClass obj sfx (filter opts) (promisifier opts)
                (multiArgs opts)) in
      internalPromisifyAll obj sfx (filter opts) (promisifier opts)
        (multiArgs opts)
    else throw (RangeError suffix_message).
Proof. intros H. unfold promisifyAll. rewrite H. reflexivity. Qed.

(** X3: The suffix that is tested is the caller's, or ["Async"] when the
    caller's is undefined.  If it is not a string, or is a string the
    identifier test refuses, the call is a RangeError and the heap is left
    as it was. *)
Lemma promisifyAll_invalid_suffix (obj : value) (opts : options) (h : heap) :
  (forall s, orDefault (suffix opts) (VStr "Async") = VStr s ->
             isIdentifier s = false) ->
  promisifyAll obj opts h = (Err (RangeError suffix_message), h).
Proof.
  intros H. unfold promisifyAll.
  destruct (orDefault (suffix opts) (VStr "Async")) eqn:E; try reflexivity.
  rewrite (H s eq_refl). reflexivity.
Qed.

(** An undefined suffix is the suffix ["Async"]: the call does what it
    does with the default spelled out; null is not defaulted and is a
    RangeError. *)
Lemma promisifyAll_default_suffix (obj c : value) (m : bool)
  (f : option filterFn) (p : option promisifierFn) (h : heap) :
  promisifyAll obj (mkOptions c m VUndefined f p) h
  = promisifyAll obj (mkOptions c m (VStr "Async") f p) h /\
  promisifyAll obj (mkOptions c m VNull f p) h
  = (Err (RangeError suffix_message), h).
Proof. split; reflexivity. Qed.

Lemma internalPromisifyAll_result (obj : value) (sfx : string)
  (f : option filterFn) (p : option promisifierFn) (m : bool)
  (h h' : heap) (v : value) :
  internalPromisifyAll obj sfx f p m h = (Ok v, h') -> v = VUndefined.
Proof.
  unfold internalPromisifyAll, bind, lift, ret.
  destruct (getFunctionsToPromisify h obj sfx None); [|discriminate].
  destruct (forEach a _ h) as [[[]|e] h1]; [|discriminate].
  intros [= <- _]. reflexivity.
Qed.

(** X4: Whenever [promisifyAll] completes normally, its result is undefined
    (the result of [internalPromisifyAll], which has no return statement),
    whatever the target and the options. *)
Lemma promisifyAll_result (obj : value) (opts : options) (h h' : heap)
  (v : value) :
  promisifyAll obj opts h = (Ok v, h') -> v = VUndefined.
Proof.
  unfold promisifyAll.
  destruct (orDefault (suffix opts) (VStr "Async")); try discriminate.
  destruct (isIdentifier s); [|discriminate].
  unfold bind at 1, lift. unfold bind at 1.
  destruct (forEach _ _ h) as [[[]|e] h1]; [|discriminate].
  apply internalPromisifyAll_result.
Qed.

(** C8, at a failing input: [promisifyAll({}, {suffix: "Async"})] has a
    valid suffix and completes normally, but its result is undefined, not
    the object at 7 it was given. *)
Theorem promisifyAll_returns_undefined :
  promisifyAll (VObj 7) defaultOptions heap_empty_object
  = (Ok VUndefined, heap_empty_object) /\
  fst (promisifyAll (VObj 7) defaultOptions heap_empty_object) <> Ok (VObj 7).
Proof. split; [vm_compute; reflexivity | vm_compute; discriminate]. Qed.

(** ** Synchronous exceptions of the wrapped function *)


(** The adapter's body has no handler around [fn.apply]: an exception of
    the wrapped function is the completion of the executor. *)
Lemma executor_throws (Bluebird_all : list value -> value)
  (Bluebird_new : (loc -> M value) -> M value) (globalThis : value)
  (fuel : nat) (h : heap) (l : loc) (o : object)
  (body : value -> list value -> res value) (ctx : value)
  (args : list value) (e : exn) :
  h !! l = Some o ->
  call o = Some (Native body) ->
  body ctx args = Err e ->
  invoke Bluebird_all Bluebird_new globalThis (S fuel) (VObj l) ctx args h
  = (Err e, h).
Proof.
  intros Hl Hc Hb. simpl. rewrite Hl, Hc, Hb. reflexivity.
Qed.




(** ** Key discovery *)










(** Shadowing on a sample: the derived object and its base both define
    [m].  Discovery on the derived object yields [m] once; the conversion
    adds one [mAsync] to the derived object, built from the derived [m]
    (the function at 9), and leaves the base object as it was. *)
Example derived_shadows_base :
  inheritedDataKeys heap_derived (VObj 10) = ["m"] /\
  getOwnPropertyNames
    (snd (promisifyAll (VObj 10) defaultOptions heap_derived)) (VObj 10)
  = Ok ["m"; "mAsync"] /\
  ownDesc (snd (promisifyAll (VObj 10) defaultOptions heap_derived)) 10
    (PStr "mAsync") = Some (Data (VObj 11) true) /\
  option_map call
    (snd (promisifyAll (VObj 10) defaultOptions heap_derived) !! 11)
  = Some (Some (Promisified (VObj 9) VUseThis false (Some "m"))) /\
  snd (promisifyAll (VObj 10) defaultOptions heap_derived) !! 8
  = heap_derived !! 8.
Proof. repeat split; vm_compute; reflexivity. Qed.

(** ** Class recursion *)

Lemma hasMethods_spec (keys : list string) :
  hasMethods keys = true <-> 1 < length keys.
Proof. unfold hasMethods. apply Nat.ltb_lt. Qed.

Lemma methods_disjunction (keys : list string) :
  hasMethods keys || hasMethodsOtherThanConstructor keys = true <->
  (1 < length keys \/ exists k, k ∈ keys /\ k <> "constructor").
Proof.
  unfold hasMethods, hasMethodsOtherThanConstructor.
  destruct keys as [|k0 [|k1 rest]]; simpl.
  - split; [discriminate|]. intros [H|(k & Hk & _)]; [lia|].
    apply elem_of_nil in Hk. contradiction.
  - destruct (String.eqb_spec k0 "constructor") as [->|Hne]; simpl.
    + split; [discriminate|]. intros [H|(k & Hk & Hn)]; [lia|].
      apply list_elem_of_singleton in Hk. contradiction.
    + split; [|reflexivity]. intros _. right. exists k0.
      split; [apply elem_of_cons; tauto | assumption].
  - split; [|reflexivity]. intros _. left. lia.
Qed.

Lemma typeof_function_names (h : heap) (fn : value) :
  typeof_function h fn = true ->
  exists statics, getOwnPropertyNames h fn = Ok statics.
Proof.
  destruct fn; simpl; try discriminate. intros _. eexists. reflexivity.
Qed.

Lemma isClass_spec (h : heap) (fn : value) :
  isClass h fn = true <-> classLike h fn.
Proof.
  unfold isClass, isClass_try, classLike.
  destruct (typeof_function h fn) eqn:Hty;
    [|split; [discriminate | intros []; discriminate]].
  destruct (typeof_function_names h fn Hty) as [statics Hst]. rewrite Hst.
  destruct (Get h fn (PStr "prototype")) as [p|e].
  2:{ split; [discriminate|]. intros (_ & p & keys & H & _). discriminate. }
  destruct (getOwnPropertyNames h p) as [keys|e] eqn:Hkeys.
  2:{ split; [discriminate|]. intros (_ & p' & keys & [= <-] & H & _).
      congruence. }
  destruct (Regex.test _ _).
  - rewrite orb_true_iff, methods_disjunction, Nat.ltb_lt. split.
    + intros H. split; [reflexivity|]. exists p, keys.
      split; [reflexivity|]. split; [exact Hkeys|].
      destruct H as [[H|H]|H]; [tauto|tauto|].
      right. right. split; [reflexivity|]. exists statics. tauto.
    + intros (_ & p' & keys' & [= <-] & Hk' & H).
      rewrite Hkeys in Hk'. injection Hk' as <-.
      destruct H as [H|[H|(_ & st & [= <-] & H)]]; tauto.
  - rewrite methods_disjunction. split.
    + intros H. split; [reflexivity|]. exists p, keys.
      split; [reflexivity|]. split; [exact Hkeys|]. tauto.
    + intros (_ & p' & keys' & [= <-] & Hk' & H).
      rewrite Hkeys in Hk'. injection Hk' as <-.
      destruct H as [H|[H|(Hd & _)]]; [tauto|tauto|discriminate].
Qed.

(** The [context] option of [promisifyAll] is never read. *)
Lemma promisifyAll_ignores_context (obj c : value) (m : bool) (s : value)
  (f : option filterFn) (p : option promisifierFn) :
  promisifyAll obj (mkOptions c m s f p)
  = promisifyAll obj (mkOptions VNull m s f p).
Proof. reflexivity. Qed.

(** One step of the class loop: for a discovered key [key] reading [fn],
    it recurses exactly when [key] is not ["constructor"] and [fn] is
    class-like; recursing is the conversion pass of [fn.prototype], then of
    [fn]; otherwise the step does nothing; and an exception inside the
    inspection makes the verdict false. *)
Lemma promisifyClass_recurses_iff_classLike (obj : value) (sfx : string)
  (flt : option filterFn) (pf : option promisifierFn) (m : bool)
  (key : string) (h : heap) (fn : value) :
  Get h obj (PStr key) = Ok fn ->
  (recursesInto h key fn = true <-> key <> "constructor" /\ classLike h fn) /\
  (recursesInto h key fn = true ->
   exists p,
     Get h fn (PStr "prototype") = Ok p /\
     promisifyClass obj sfx flt pf m key h
     = (run! internalPromisifyAll p sfx flt pf m in
        run! internalPromisifyAll fn sfx flt pf m in
        ret tt) h) /\
  (recursesInto h key fn = false ->
   promisifyClass obj sfx flt pf m key h = (Ok tt, h)) /\
  (forall e, isClass_try h fn = Err e -> recursesInto h key fn = false).
Proof.
  intros Hget.
  assert (Hiff : recursesInto h key fn = true
                 <-> key <> "constructor" /\ classLike h fn).
  { unfold recursesInto. rewrite andb_true_iff, negb_true_iff, isClass_spec.
    destruct (String.eqb_spec key "constructor"); split; intros [H1 H2];
      try discriminate; try contradiction; tauto. }
  split; [exact Hiff|]. split; [|split].
  - intros Hrec. apply Hiff in Hrec as Hc. destruct Hc as (_ & _ & p & keys & Hp & _).
    exists p. split; [exact Hp|].
    unfold promisifyClass, bind at 1, lift. rewrite Hget.
    unfold bind at 1. rewrite Hrec.
    unfold bind at 1. rewrite Hp. reflexivity.
  - intros Hrec. unfold promisifyClass, bind at 1, lift. rewrite Hget.
    unfold bind at 1. rewrite Hrec. reflexivity.
  - intros e He. unfold recursesInto, isClass. rewrite He. apply andb_false_r.
Qed.

(** Class recursion on the sample: the class-like [K] has its prototype's
    [run] and its static [create] converted; the plain function [util] is
    converted as a property of the target but not recursed into. *)
Example class_member_is_recursed_into :
  recursesInto heap_class "K" (VObj 7) = true /\
  recursesInto heap_class "util" (VObj 11) = false /\
  getOwnPropertyNames (snd (promisifyAll (VObj 13) defaultOptions heap_class))
    (VObj 8) = Ok ["constructor"; "run"; "runAsync"] /\
  getOwnPropertyNames (snd (promisifyAll (VObj 13) defaultOptions heap_class))
    (VObj 7) = Ok ["length"; "name"; "prototype"; "create"; "createAsync"] /\
  getOwnPropertyNames (snd (promisifyAll (VObj 13) defaultOptions heap_class))
    (VObj 11) = Ok ["length"; "name"; "prototype"] /\
  getOwnPropertyNames (snd (promisifyAll (VObj 13) defaultOptions heap_class))
    (VObj 13) = Ok ["K"; "util"; "KAsync"; "utilAsync"].
Proof. repeat split; vm_compute; reflexivity. Qed.

(** C6, at a failing input: [promisifyAll({K, util}, {filter: () => false})].
    [K] is class-like and is recursed into: its prototype (at 8) and [K]
    itself (at 7) are converted.  But the conversion does not use the
    caller's filter: the filter returns false for every name, and would
    make [shouldPromisify] refuse [run] and [create]; yet [runAsync] and
    [createAsync] are installed. *)
Theorem promisifyAll_recursion_drops_filter :
  recursesInto heap_class "K" (VObj 7) = true /\
  Get heap_class (VObj 7) (PStr "prototype") = Ok (VObj 8) /\
  shouldPromisify heap_class "run" "Async" (VObj 8) (Some filter_rejects_all)
  = Ok false /\
  shouldPromisify heap_class "create" "Async" (VObj 7) (Some filter_rejects_all)
  = Ok false /\
  fst (promisifyAll (VObj 13) (options_with_filter filter_rejects_all)
         heap_class) = Ok VUndefined /\
  getOwnPropertyNames
    (snd (promisifyAll (VObj 13) (options_with_filter filter_rejects_all)
            heap_class)) (VObj 8)
  = Ok ["constructor"; "run"; "runAsync"] /\
  getOwnPropertyNames
    (snd (promisifyAll (VObj 13) (options_with_filter filter_rejects_all)
            heap_class)) (VObj 7)
  = Ok ["length"; "name"; "prototype"; "create"; "createAsync"].
Proof. repeat split; vm_compute; reflexivity. Qed.

(** ** Frame of bulk conversion *)


Lemma pkey_eqb_spec (a b : pkey) : reflect (a = b) (pkey_eqb a b).
Proof.
  destruct a as [x|], b as [y|]; simpl; try (constructor; congruence).
  destruct (String.eqb_spec x y); constructor; congruence.
Qed.

Lemma assoc_updateAssoc (k k' : pkey) (d : desc) (ps : list (pkey * desc)) :
  assoc k' (updateAssoc k d ps)
  = if pkey_eqb k' k
    then match assoc k ps with Some _ => Some d | None => None end
    else assoc k' ps.
Proof.
  induction ps as [|[k0 d0] ps IH]; simpl.
  - destruct (pkey_eqb k' k); reflexivity.
  - destruct (pkey_eqb_spec k k0) as [->|Hne]; simpl.
    + destruct (pkey_eqb_spec k' k0); reflexivity.
    + rewrite IH. destruct (pkey_eqb_spec k' k0) as [->|Hne'].
      * destruct (pkey_eqb_spec k0 k); [congruence | reflexivity].
      * reflexivity.
Qed.

Lemma assoc_snoc (k k0 : pkey) (d : desc) (ps : list (pkey * desc)) :
  assoc k (ps ++ [(k0, d)])
  = match assoc k ps with
    | Some x => Some x
    | None => if pkey_eqb k k0 then Some d else None
    end.
Proof.
  induction ps as [|[k1 d1] ps IH]; simpl; [reflexivity|].
  destruct (pkey_eqb k k1); [reflexivity | exact IH].
Qed.

(** What an assignment does: nothing when it is blocked; otherwise the
    target gets a writable data property [k] holding [v], its other
    properties and all other objects staying as they are. *)
Lemma setProp_spec (obj : value) (k : string) (v : value) (h h' : heap)
  (r : res unit) :
  setProp obj k v h = (r, h') ->
  (setBlocked h obj k = true /\ h' = h) \/
  (setBlocked h obj k = false /\
   exists l o ps,
     obj = VObj l /\ h !! l = Some o /\ r = Ok tt /\
     h' = <[l := withProps o ps]> h /\
     (forall k', assoc k' ps
                 = if pkey_eqb k' (PStr k) then Some (Data v true)
                   else assoc k' (props o)) /\
     (assoc (PStr k) (props o) = None \/
      exists v0, assoc (PStr k) (props o) = Some (Data v0 true))).
Proof.
  unfold setProp, setBlocked.
  destruct obj as [| |b|z| |s| |l]; try (intros [= <- <-]; left; tauto).
  destruct (h !! l) as [o|] eqn:Hl; [|intros [= <- <-]; left; tauto].
  destruct (assoc (PStr k) (props o)) as [[v0 [|]|g s]|] eqn:Ha.
  - intros [= <- <-]. right. split; [reflexivity|].
    exists l, o, (updateAssoc (PStr k) (Data v true) (props o)).
    split; [reflexivity|]. split; [exact Hl|]. split; [reflexivity|].
    split; [reflexivity|]. split.
    + intros k'. rewrite assoc_updateAssoc, Ha. reflexivity.
    + right. exists v0. exact Ha.
  - intros [= <- <-]. left. tauto.
  - intros [= <- <-]. left. tauto.
  - destruct (blocksSet _); simpl; [intros [= <- <-]; left; tauto|].
    destruct (extensible o); simpl; [|intros [= <- <-]; left; tauto].
    intros [= <- <-]. right. split; [reflexivity|].
    exists l, o, (props o ++ [(PStr k, Data v true)])%list.
    split; [reflexivity|]. split; [exact Hl|]. split; [reflexivity|].
    split; [reflexivity|]. split; [|left; exact Ha].
    intros k'. rewrite assoc_snoc.
    destruct (pkey_eqb_spec k' (PStr k)) as [->|Hne].
    + rewrite Ha. reflexivity.
    + destruct (assoc k' (props o)); reflexivity.
Qed.

Lemma adapterObject_fresh (fn ctx : value) (m : bool) (key : option string)
  (h : heap) :
  exists a p,
    promisifyFunction fn ctx m key h = (Ok (VObj (length h)), (h ++ [a; p])%list) /\
    adapterObject a /\ call a = Some (Promisified fn ctx m key) /\
    freshObject p.
Proof.
  eexists _, _. split; [reflexivity|]. split; [|split; [reflexivity|]].
  - split; [|reflexivity]. eexists _, _, _, _. reflexivity.
  - right. repeat split; reflexivity.
Qed.

Lemma passInv_refl (sfx : string) (obj : value) (h : heap) :
  passInv sfx obj h h.
Proof.
  split; [lia|]. split; [auto|]. split.
  - intros i o Hi Ho. apply lookup_lt_Some in Ho. lia.
  - intros l o0 _ Hl. exists o0. split; [assumption|].
    split; [repeat split|]. intros k. left. reflexivity.
Qed.

Lemma installed_app (sfx : string) (obj : value) (h0 hc : heap)
  (extra : list object) (k : pkey) (dc : option desc) :
  installed sfx obj h0 hc k dc -> installed sfx obj h0 (hc ++ extra) k dc.
Proof.
  intros (key & a & oa & H1 & H2 & H3 & H4 & H5 & H6 & H7).
  exists key, a, oa. repeat (split; [assumption|]). split; [|assumption].
  rewrite lookup_app_l; [assumption|]. eapply lookup_lt_Some; eassumption.
Qed.

Lemma passInv_alloc (sfx : string) (obj : value) (h0 hc : heap)
  (a p : object) :
  passInv sfx obj h0 hc -> freshObject a -> freshObject p ->
  passInv sfx obj h0 (hc ++ [a; p]).
Proof.
  intros (Hlen & Hother & Hfresh & Htarget) Ha Hp.
  split; [rewrite length_app; lia|]. split; [|split].
  - intros l o Hl Hne. rewrite lookup_app_l.
    + apply Hother; assumption.
    + apply lookup_lt_Some in Hl. lia.
  - intros i o Hi Ho.
    destruct (decide (i < length hc)) as [Hlt|Hge].
    + rewrite lookup_app_l in Ho by assumption. eapply Hfresh; eassumption.
    + rewrite lookup_app_r in Ho by lia.
      destruct (i - length hc) as [|[|n]]; simpl in Ho.
      * injection Ho as <-. assumption.
      * injection Ho as <-. assumption.
      * discriminate.
  - intros l o0 Hobj Hl. destruct (Htarget l o0 Hobj Hl) as (oc & Hc & Hm & Hk).
    exists oc. split; [|split; [assumption|]].
    + rewrite lookup_app_l; [assumption|]. eapply lookup_lt_Some; eassumption.
    + intros k. destruct (Hk k) as [H|H]; [left; assumption|].
      right. apply installed_app. assumption.
Qed.

Lemma lookupChain_agree (h h' : heap) (n : nat) :
  (forall l, l < n -> h !! l = h' !! l) ->
  forall (fuel : nat) (v : value) (k : pkey),
    match v with
    | VObj l => l < n
    | VUndefined | VNull => True
    | _ => False
    end ->
    lookupChain fuel h v k = lookupChain fuel h' v k.
Proof.
  intros Hagree. induction fuel as [|f IH]; intros v k Hv; [reflexivity|].
  destruct v as [| |b|z| |s| |l]; try contradiction; try reflexivity.
  cbn [lookupChain ownDescOf]. unfold ownDesc, getPrototypeOf.
  rewrite <- (Hagree l Hv).
  destruct (h !! l) as [o|]; [|apply IH; exact I].
  destruct (assoc k (props o)); [reflexivity|].
  destruct (proto o) as [| |b|z| |s| |p]; try (apply IH; exact I).
  destruct (Nat.ltb_spec p l); apply IH; [lia | exact I].
Qed.

Lemma eligible_valid (h : heap) (key sfx : string) (l : loc) :
  shouldPromisify h key sfx (VObj l) None = Ok true ->
  exists o, h !! l = Some o.
Proof.
  destruct (h !! l) as [o|] eqn:Hl; [intros _; eexists; reflexivity|].
  unfold shouldPromisify, Get. cbn [lookupChain chainBound ownDescOf].
  unfold ownDesc, getPrototypeOf. rewrite Hl.
  destruct l; simpl; discriminate.
Qed.

Lemma getPrototypeOf_below (h : heap) (l : loc) :
  match getPrototypeOf h (VObj l) with
  | VObj p => p < l
  | VUndefined | VNull => True
  | _ => False
  end.
Proof.
  unfold getPrototypeOf. destruct (h !! l) as [o|]; [|exact I].
  destruct (proto o) as [| |b|z| |s| |p]; try exact I.
  destruct (Nat.ltb_spec p l); [assumption | exact I].
Qed.

Lemma setBlocked_agree (h0 hc : heap) (l : loc) (o0 oc : object) (k : string) :
  h0 !! l = Some o0 -> hc !! l = Some oc -> sameMeta o0 oc ->
  assoc (PStr k) (props oc) = assoc (PStr k) (props o0) ->
  (forall l', l' < l -> h0 !! l' = hc !! l') ->
  setBlocked hc (VObj l) k = setBlocked h0 (VObj l) k.
Proof.
  intros H0 Hc (Hproto & Hext & _) Hassoc Hbelow.
  pose proof (getPrototypeOf_below h0 l) as Hp.
  assert (Hpe : getPrototypeOf hc (VObj l) = getPrototypeOf h0 (VObj l)).
  { unfold getPrototypeOf. rewrite H0, Hc, Hproto. reflexivity. }
  unfold setBlocked. rewrite H0, Hc, Hassoc, Hpe, Hext.
  destruct (assoc (PStr k) (props o0)); [reflexivity|].
  rewrite (lookupChain_agree h0 hc l Hbelow _ _ _ Hp). reflexivity.
Qed.

Lemma passInv_below (sfx : string) (l : loc) (h0 hc : heap) (o0 : object) :
  passInv sfx (VObj l) h0 hc -> h0 !! l = Some o0 ->
  forall l', l' < l -> h0 !! l' = hc !! l'.
Proof.
  intros (_ & Hother & _) Hl l' Hlt.
  assert (Hv : l' < length h0) by (apply lookup_lt_Some in Hl; lia).
  destruct (lookup_lt_is_Some_2 h0 l' Hv) as [o Ho]. rewrite Ho. symmetry.
  apply Hother; [assumption|]. intros [= ->]. lia.
Qed.

Lemma length_append (a b : string) :
  String.length (String.append a b) = String.length a + String.length b.
Proof. induction a as [|c a IH]; simpl; [reflexivity | rewrite IH; reflexivity]. Qed.

Lemma append_inj_l (a b sfx : string) :
  String.append a sfx = String.append b sfx -> a = b.
Proof.
  intros H.
  assert (Hlen : String.length a = String.length b).
  { apply (f_equal String.length) in H. rewrite !length_append in H. lia. }
  revert b H Hlen. induction a as [|c a IH]; intros [|c' b] H Hlen;
    simpl in *; try discriminate; [reflexivity|].
  injection H as -> H. f_equal. apply IH; [assumption | lia].
Qed.

Lemma passInv_set (sfx : string) (obj : value) (h0 hc hc' : heap)
  (key : string) (a : loc) (oa : object) (r : res unit) :
  passInv sfx obj h0 hc ->
  shouldPromisify h0 key sfx obj None = Ok true ->
  length h0 <= a -> hc !! a = Some oa -> keyedAdapter key oa ->
  setProp obj (String.append key sfx) (VObj a) hc = (r, hc') ->
  passInv sfx obj h0 hc'.
Proof.
  intros Inv Helig Hage Ha Hoa Hset.
  destruct (setProp_spec _ _ _ _ _ _ Hset)
    as [[Hb ->]|(Hb & l & oc & ps & -> & Hl & -> & -> & Hps & Hold)];
    [assumption|].
  destruct (eligible_valid _ _ _ _ Helig) as [o0 H0].
  pose proof (passInv_below _ _ _ _ _ Inv H0) as Hbelow.
  destruct Inv as (Hlen & Hother & Hfresh & Htarget).
  destruct (Htarget l o0 eq_refl H0) as (oc' & Hc' & Hmeta & Hk).
  rewrite Hl in Hc'. injection Hc' as <-.
  pose proof (lookup_lt_Some _ _ _ H0) as Hl0.
  assert (Hins : forall i, length h0 <= i ->
            <[l := withProps oc ps]> hc !! i = hc !! i).
  { intros i Hi. apply list_lookup_insert_ne. lia. }
  assert (Hb0 : setBlocked h0 (VObj l) (String.append key sfx) = false).
  { destruct (Hk (PStr (String.append key sfx))) as [Hsame|Hinst].
    - rewrite <- Hb. symmetry. eapply setBlocked_agree; eassumption.
    - destruct Hinst as (key' & a' & oa' & [= Hkk] & _ & Hb' & _).
      apply append_inj_l in Hkk. subst key'. assumption. }
  split; [rewrite length_insert; assumption|]. split; [|split].
  - intros l' o Hl' Hne. rewrite list_lookup_insert_ne by congruence.
    apply Hother; assumption.
  - intros i o Hi Ho. rewrite Hins in Ho by assumption.
    eapply Hfresh; eassumption.
  - intros l' o0' [= <-] H0'. rewrite H0 in H0'. injection H0' as <-.
    exists (withProps oc ps). split; [|split; [exact Hmeta|]].
    + apply list_lookup_insert_eq. eapply lookup_lt_Some; eassumption.
    + intros k. simpl. rewrite Hps.
      destruct (pkey_eqb_spec k (PStr (String.append key sfx))) as [->|Hne].
      * right. exists key, a, oa.
        repeat (split; [first [reflexivity|assumption]|]).
        split; [|assumption]. rewrite Hins by assumption. assumption.
      * destruct (Hk k) as [Hsame|Hinst]; [left; assumption|]. right.
        destruct Hinst as (key' & a' & oa' & H1 & H2 & H3 & H4 & H5 & H6 & H7).
        exists key', a', oa'. repeat (split; [assumption|]).
        split; [|assumption]. rewrite Hins by assumption. assumption.
Qed.

Lemma installKey_inv (sfx : string) (obj : value) (h0 hc hc' : heap)
  (m : bool) (key : string) (r : res unit) :
  passInv sfx obj h0 hc ->
  shouldPromisify h0 key sfx obj None = Ok true ->
  installKey obj sfx None m key hc = (r, hc') ->
  passInv sfx obj h0 hc'.
Proof.
  intros Inv Helig. unfold installKey, defaultPromisified, bind, lift.
  destruct (Get hc obj (PStr key)) as [fn|e]; [|intros [= <- <-]; assumption].
  destruct (adapterObject_fresh fn VUseThis m (Some key) hc)
    as (a & p & -> & Ha & Hca & Hp).
  intros Hset.
  assert (Inv' : passInv sfx obj h0 (hc ++ [a; p])).
  { apply passInv_alloc; [assumption | left; assumption | assumption]. }
  apply (passInv_set sfx obj h0 _ hc' key (length hc) a r Inv' Helig);
    [destruct Inv; assumption | | split; [assumption | eauto] | assumption].
  rewrite lookup_app_r by lia. rewrite Nat.sub_diag. reflexivity.
Qed.

Lemma forEach_installKey_inv (sfx : string) (obj : value) (h0 : heap)
  (m : bool) (keys : list string) :
  (forall key, key ∈ keys -> shouldPromisify h0 key sfx obj None = Ok true) ->
  forall (hc h1 : heap) (r : res unit),
    passInv sfx obj h0 hc ->
    forEach keys (installKey obj sfx None m) hc = (r, h1) ->
    passInv sfx obj h0 h1.
Proof.
  induction keys as [|key rest IH]; intros Helig hc h1 r Inv; simpl.
  - intros [= <- <-]. assumption.
  - unfold bind.
    destruct (installKey obj sfx None m key hc) as [[[]|e] hc'] eqn:Hstep.
    + apply IH.
      * intros k Hk. apply Helig. apply elem_of_cons. tauto.
      * eapply installKey_inv; [eassumption | | eassumption].
        apply Helig. apply elem_of_cons. tauto.
    + intros [= <- <-]. eapply installKey_inv; [eassumption | | eassumption].
      apply Helig. apply elem_of_cons. tauto.
Qed.

Lemma filterKeys_true (p : string -> res bool) (keys : list string) :
  forall l, filterKeys p keys = Ok l -> forall k, k ∈ l -> p k = Ok true.
Proof.
  induction keys as [|key rest IH]; simpl; intros l.
  - intros [= <-] k Hk. apply elem_of_nil in Hk. contradiction.
  - destruct (p key) as [b|e] eqn:Hp; [|discriminate].
    destruct (filterKeys p rest) as [l'|e]; [|discriminate].
    intros [= <-] k Hk. destruct b.
    + apply elem_of_cons in Hk as [->|Hk]; [assumption | eapply IH; eauto].
    + eapply IH; eauto.
Qed.

Lemma internalPromisifyAll_inv (sfx : string) (obj : value)
  (flt : option filterFn) (m : bool) (h0 h1 : heap) (r : res value) :
  internalPromisifyAll obj sfx flt None m h0 = (r, h1) ->
  passInv sfx obj h0 h1.
Proof.
  unfold internalPromisifyAll. unfold bind at 1, lift.
  destruct (getFunctionsToPromisify h0 obj sfx None) as [keys|e] eqn:Hkeys;
    [|intros [= <- <-]; apply passInv_refl].
  unfold bind.
  destruct (forEach keys (installKey obj sfx None m) h0) as [[[]|e] h'] eqn:Hloop;
    intros [= <- <-];
    (eapply forEach_installKey_inv; [| apply passInv_refl | eassumption]);
    intros key Hk; eapply (filterKeys_true _ _ _ Hkeys); assumption.
Qed.












Lemma isPromisified_object (h : heap) (l : loc) :
  isPromisified h (VObj l)
  = match lookupChain (S l) h (VObj l) IS_PROMISIFIED with
    | Some d => readDesc d
    | None => Ok VUndefined
    end.
Proof. reflexivity. Qed.


Lemma lookupChain_S_obj (f : nat) (h : heap) (l : loc) (k : pkey) :
  lookupChain (S f) h (VObj l) k
  = match ownDesc h l k with
    | Some d => Some d
    | None => lookupChain f h (getPrototypeOf h (VObj l)) k
    end.
Proof. reflexivity. Qed.


(** Bulk conversion as a sequence of passes. *)

Lemma inheritedDataKeys_guard_false (h : heap) (obj : value) :
  toBoolean obj && negb (includes FORBIDDEN_PROTOTYPES obj) = false ->
  inheritedDataKeys h obj = [].
Proof.
  intros H. unfold inheritedDataKeys. cbn [inheritedDataKeys_loop].
  rewrite H. reflexivity.
Qed.

Lemma internalPromisifyAll_no_keys (obj : value) (sfx : string)
  (flt : option filterFn) (pf : option promisifierFn) (m : bool) (h : heap) :
  inheritedDataKeys h obj = [] ->
  internalPromisifyAll obj sfx flt pf m h = (Ok VUndefined, h).
Proof.
  intros H. unfold internalPromisifyAll, bind, lift, getFunctionsToPromisify.
  rewrite H. reflexivity.
Qed.

Lemma internalPromisifyAll_passStep (sfx : string) (obj : value)
  (flt : option filterFn) (m : bool) (h h1 : heap) (r : res value) :
  internalPromisifyAll obj sfx flt None m h = (r, h1) -> passStep sfx h h1.
Proof.
  intros H. exists obj. split; [eapply internalPromisifyAll_inv; eassumption|].
  intros Hk. rewrite (internalPromisifyAll_no_keys _ _ _ _ _ _ Hk) in H.
  injection H as _ <-. reflexivity.
Qed.

Lemma passes_trans (sfx : string) (h h1 h2 : heap) :
  passes sfx h h1 -> passes sfx h1 h2 -> passes sfx h h2.
Proof.
  induction 1 as [h|h ha hb Hs Hp IH]; [tauto|].
  intros H2. eapply passes_cons; [eassumption | apply IH, H2].
Qed.

Lemma passes_one (sfx : string) (h h1 : heap) :
  passStep sfx h h1 -> passes sfx h h1.
Proof. intros H. eapply passes_cons; [eassumption | apply passes_nil]. Qed.

Lemma promisifyClass_passes (sfx : string) (obj : value)
  (flt : option filterFn) (m : bool) (key : string) (h0 h1 : heap)
  (r : res unit) :
  promisifyClass obj sfx flt None m key h0 = (r, h1) -> passes sfx h0 h1.
Proof.
  unfold promisifyClass. unfold bind at 1, lift.
  destruct (Get h0 obj (PStr key)) as [fn|e];
    [|intros [= <- <-]; apply passes_nil].
  unfold bind at 1.
  destruct (recursesInto h0 key fn); [|intros [= <- <-]; apply passes_nil].
  unfold bind at 1.
  destruct (Get h0 fn (PStr "prototype")) as [p|e];
    [|intros [= <- <-]; apply passes_nil].
  unfold bind at 1.
  destruct (internalPromisifyAll p sfx flt None m h0) as [[v1|e1] h'] eqn:H1;
    [|intros [= <- <-]; eapply passes_one, internalPromisifyAll_passStep;
      eassumption].
  unfold bind.
  destruct (internalPromisifyAll fn sfx flt None m h') as [[v2|e2] h''] eqn:H2;
    intros [= <- <-];
    (eapply passes_cons;
     [eapply internalPromisifyAll_passStep; eassumption
     |eapply passes_one, internalPromisifyAll_passStep; eassumption]).
Qed.

Lemma forEach_promisifyClass_passes (sfx : string) (obj : value)
  (flt : option filterFn) (m : bool) (keys : list string) :
  forall (h0 h1 : heap) (r : res unit),
    forEach keys (promisifyClass obj sfx flt None m) h0 = (r, h1) ->
    passes sfx h0 h1.
Proof.
  induction keys as [|key rest IH]; intros h0 h1 r; simpl.
  - intros [= <- <-]. apply passes_nil.
  - unfold bind.
    destruct (promisifyClass obj sfx flt None m key h0) as [[[]|e] h'] eqn:Hs.
    + intros Hr. eapply passes_trans; [eapply promisifyClass_passes; eassumption|].
      eapply IH; eassumption.
    + intros [= <- <-]. eapply promisifyClass_passes; eassumption.
Qed.

Lemma promisifyAll_passes (obj : value) (opts : options) (sfx : string)
  (h h' : heap) (r : res value) :
  promisifier opts = None ->
  suffix opts = VStr sfx ->
  promisifyAll obj opts h = (r, h') ->
  passes sfx h h'.
Proof.
  intros Hp Hs Hrun. rewrite (promisifyAll_string _ _ _ Hs), Hp in Hrun.
  destruct (isIdentifier sfx);
    [|injection Hrun as <- <-; apply passes_nil].
  unfold bind at 1, lift in Hrun. unfold bind at 1 in Hrun.
  destruct (forEach _ _ h) as [[[]|e] h1] eqn:Hloop.
  - eapply passes_trans;
      [eapply forEach_promisifyClass_passes; eassumption
      | eapply passes_one, internalPromisifyAll_passStep; eassumption].
  - injection Hrun as <- <-.
    eapply forEach_promisifyClass_passes; eassumption.
Qed.





(** ** Idempotence *)


(** Without a promisifier too, a second call can mutate: converting the
    object at 10 gives it its first own name, which makes [F] (whose
    prototype it is) class-like for the second call; that call then
    converts the static [util] of [F]. *)
Lemma promisifyAll_twice_new_class_member_mutates :
  getOwnPropertyNames
    (snd (promisifyAll (VObj 10) defaultOptions heap_alias)) (VObj 7)
  = Ok ["prototype"; "util"] /\
  getOwnPropertyNames
    (snd (promisifyAll (VObj 10) defaultOptions
            (snd (promisifyAll (VObj 10) defaultOptions heap_alias)))) (VObj 7)
  = Ok ["prototype"; "util"; "utilAsync"].
Proof. split; vm_compute; reflexivity. Qed.

Lemma doneOk_alloc (sfx : string) (obj : value) (h0 hc : heap)
  (extra : list object) (key : string) :
  doneOk sfx obj h0 hc key -> doneOk sfx obj h0 (hc ++ extra) key.
Proof.
  intros [Hb|(l & oc & -> & Hl & Hi)]; [left; assumption|]. right.
  exists l, oc. split; [reflexivity|]. split.
  - rewrite lookup_app_l; [assumption|]. eapply lookup_lt_Some; eassumption.
  - apply installed_app. assumption.
Qed.

Lemma doneOk_set (sfx : string) (obj : value) (h0 hc hc' : heap)
  (key key' : string) (a : loc) (oa : object) (r : res unit) :
  passInv sfx obj h0 hc ->
  shouldPromisify h0 key sfx obj None = Ok true ->
  length h0 <= a -> hc !! a = Some oa -> keyedAdapter key oa ->
  setProp obj (String.append key sfx) (VObj a) hc = (r, hc') ->
  (doneOk sfx obj h0 hc key' -> doneOk sfx obj h0 hc' key') /\
  doneOk sfx obj h0 hc' key.
Proof.
  intros Inv Helig Hage Ha Hoa Hset.
  destruct (setProp_spec _ _ _ _ _ _ Hset)
    as [[Hb ->]|(Hb & l & oc & ps & -> & Hl & -> & -> & Hps & Hold)].
  - split; [tauto|].
    destruct obj as [| |b|z| |s| |l]; try (left; reflexivity).
    destruct (eligible_valid _ _ _ _ Helig) as [o0 H0].
    pose proof (passInv_below _ _ _ _ _ Inv H0) as Hbelow.
    destruct Inv as (Hlen & Hother & Hfresh & Htarget).
    destruct (Htarget l o0 eq_refl H0) as (oc & Hc & Hmeta & Hk).
    destruct (Hk (PStr (String.append key sfx))) as [Hsame|Hinst].
    + left. rewrite <- Hb. symmetry. eapply setBlocked_agree; eassumption.
    + right. exists l, oc. tauto.
  - destruct (eligible_valid _ _ _ _ Helig) as [o0 H0].
    pose proof (passInv_below _ _ _ _ _ Inv H0) as Hbelow.
    destruct Inv as (Hlen & Hother & Hfresh & Htarget).
    destruct (Htarget l o0 eq_refl H0) as (oc' & Hc' & Hmeta & Hk).
    rewrite Hl in Hc'. injection Hc' as <-.
    pose proof (lookup_lt_Some _ _ _ H0) as Hl0.
    assert (Hins : forall i, length h0 <= i ->
              <[l := withProps oc ps]> hc !! i = hc !! i).
    { intros i Hi. apply list_lookup_insert_ne. lia. }
    assert (Hnow : <[l := withProps oc ps]> hc !! l = Some (withProps oc ps)).
    { apply list_lookup_insert_eq. eapply lookup_lt_Some; eassumption. }
    assert (Hb0 : setBlocked h0 (VObj l) (String.append key sfx) = false).
    { destruct (Hk (PStr (String.append key sfx))) as [Hsame|Hinst].
      - rewrite <- Hb. symmetry. eapply setBlocked_agree; eassumption.
      - destruct Hinst as (key0 & a' & oa' & [= Hkk] & _ & Hb' & _).
        apply append_inj_l in Hkk. subst key0. assumption. }
    assert (Hnew : installed sfx (VObj l) h0 (<[l := withProps oc ps]> hc)
                     (PStr (String.append key sfx))
                     (assoc (PStr (String.append key sfx)) ps)).
    { exists key, a, oa. rewrite Hps.
      destruct (pkey_eqb_spec (PStr (String.append key sfx))
                  (PStr (String.append key sfx))); [|contradiction].
      repeat (split; [first [reflexivity|assumption]|]).
      split; [|assumption]. rewrite Hins by assumption. assumption. }
    split.
    + intros [Hbk|(l' & oc' & [= <-] & Hl' & Hi)]; [left; assumption|].
      right. exists l, (withProps oc ps). split; [reflexivity|].
      split; [assumption|]. rewrite Hl in Hl'. injection Hl' as <-.
      cbn [props withProps]. rewrite Hps.
      destruct (pkey_eqb_spec (PStr (String.append key' sfx))
                  (PStr (String.append key sfx))) as [Heq|Hne].
      * injection Heq as Heq. apply append_inj_l in Heq. subst key'.
        rewrite Hps in Hnew.
        destruct (pkey_eqb_spec (PStr (String.append key sfx))
                    (PStr (String.append key sfx))); [|contradiction].
        exact Hnew.
      * destruct Hi as (key0 & a' & oa' & H1 & H2 & H3 & H4 & H5 & H6 & H7).
        exists key0, a', oa'. repeat (split; [assumption|]).
        split; [|assumption]. rewrite Hins by assumption. assumption.
    + right. exists l, (withProps oc ps). split; [reflexivity|].
      split; [assumption|]. exact Hnew.
Qed.

Lemma installKey_done (sfx : string) (obj : value) (h0 hc hc' : heap)
  (m : bool) (key : string) :
  passInv sfx obj h0 hc ->
  shouldPromisify h0 key sfx obj None = Ok true ->
  installKey obj sfx None m key hc = (Ok tt, hc') ->
  (forall key', doneOk sfx obj h0 hc key' -> doneOk sfx obj h0 hc' key') /\
  doneOk sfx obj h0 hc' key.
Proof.
  intros Inv Helig. unfold installKey, defaultPromisified, bind, lift.
  destruct (Get hc obj (PStr key)) as [fn|e]; [|discriminate].
  destruct (adapterObject_fresh fn VUseThis m (Some key) hc)
    as (a & p & -> & Ha & Hca & Hp).
  intros Hset.
  assert (Hka : keyedAdapter key a) by (split; [assumption | eauto]).
  assert (Inv' : passInv sfx obj h0 (hc ++ [a; p])).
  { apply passInv_alloc; [assumption | left; assumption | assumption]. }
  assert (Hla : (hc ++ [a; p])%list !! length hc = Some a).
  { rewrite lookup_app_r by lia. rewrite Nat.sub_diag. reflexivity. }
  assert (Hlen : length h0 <= length hc) by (destruct Inv; assumption).
  split.
  - intros key' Hd.
    apply (proj1 (doneOk_set sfx obj h0 _ hc' key key' (length hc) a _
                    Inv' Helig Hlen Hla Hka Hset)).
    apply doneOk_alloc. assumption.
  - apply (proj2 (doneOk_set sfx obj h0 _ hc' key key (length hc) a _
                    Inv' Helig Hlen Hla Hka Hset)).
Qed.

Lemma forEach_installKey_done (sfx : string) (obj : value) (h0 : heap)
  (m : bool) (keys : list string) :
  (forall key, key ∈ keys -> shouldPromisify h0 key sfx obj None = Ok true) ->
  forall (hc h1 : heap),
    passInv sfx obj h0 hc ->
    forEach keys (installKey obj sfx None m) hc = (Ok tt, h1) ->
    (forall key, doneOk sfx obj h0 hc key -> doneOk sfx obj h0 h1 key) /\
    (forall key, key ∈ keys -> doneOk sfx obj h0 h1 key).
Proof.
  induction keys as [|key rest IH]; intros Helig hc h1 Inv; simpl.
  - intros [= <-]. split; [tauto|]. intros key Hk.
    apply elem_of_nil in Hk. contradiction.
  - unfold bind.
    destruct (installKey obj sfx None m key hc) as [[[]|e] hc'] eqn:Hstep;
      [|discriminate].
    intros Hrest.
    assert (Hk : shouldPromisify h0 key sfx obj None = Ok true).
    { apply Helig. apply elem_of_cons. tauto. }
    destruct (installKey_done _ _ _ _ _ _ _ Inv Hk Hstep) as [Hkeep Hnew].
    assert (Inv' : passInv sfx obj h0 hc').
    { eapply installKey_inv; eassumption. }
    destruct (IH (fun k Hin => Helig k (proj2 (elem_of_cons _ _ _) (or_intror Hin)))
                hc' h1 Inv' Hrest) as [Hkeep' Hrest'].
    split.
    + intros k Hd. apply Hkeep', Hkeep, Hd.
    + intros k Hin. apply elem_of_cons in Hin as [->|Hin].
      * apply Hkeep', Hnew.
      * apply Hrest', Hin.
Qed.














Lemma find_ext {A : Type} (f g : A -> bool) (l : list A) :
  (forall x, x ∈ l -> f x = g x) -> find f l = find g l.
Proof.
  induction l as [|x l IH]; intros H; simpl; [reflexivity|].
  rewrite <- (H x) by (apply elem_of_cons; tauto).
  destruct (f x); [reflexivity|]. apply IH.
  intros y Hy. apply H. apply elem_of_cons. tauto.
Qed.

Lemma find_some_elem {A : Type} (f : A -> bool) (l : list A) (x : A) :
  find f l = Some x -> x ∈ l.
Proof.
  induction l as [|y l IH]; simpl; [discriminate|].
  destruct (f y); [intros [= ->]; apply elem_of_cons; tauto|].
  intros H. apply elem_of_cons. right. apply IH, H.
Qed.











Lemma passInv_length (sfx : string) (obj : value) (h0 h1 : heap) :
  passInv sfx obj h0 h1 -> length h0 <= length h1.
Proof. intros (H & _). exact H. Qed.




Lemma converted_length (sfx : string) (m : bool) (h h1 : heap)
  (ts : list value) :
  converted sfx m h ts h1 -> length h <= length h1.
Proof.
  induction 1 as [h|h ha hb t0 ts v Hrun _ IH]; [lia|].
  pose proof (passInv_length _ _ _ _ (internalPromisifyAll_inv _ _ _ _ _ _ _ Hrun)).
  lia.
Qed.
















(** The targets on the samples: on the object with the class-like member
    [K] both calls convert [K.prototype], [K] and the object; on the
    aliased prototype the second call converts [F], which the first call
    did not. *)
Example promisifyAllTargets_samples :
  promisifyAllTargets (VObj 13) defaultOptions heap_class
  = [VObj 8; VObj 7; VObj 13] /\
  promisifyAllTargets (VObj 13) defaultOptions
    (snd (promisifyAll (VObj 13) defaultOptions heap_class))
  = [VObj 8; VObj 7; VObj 13] /\
  promisifyAllTargets (VObj 10) defaultOptions heap_alias = [VObj 10] /\
  promisifyAllTargets (VObj 10) defaultOptions
    (snd (promisifyAll (VObj 10) defaultOptions heap_alias))
  = [VObj 10; VObj 7; VObj 10] /\
  revisits heap_alias
    (promisifyAllTargets (VObj 10) defaultOptions heap_alias)
    (promisifyAllTargets (VObj 10) defaultOptions
       (snd (promisifyAll (VObj 10) defaultOptions heap_alias)))
  = false.
Proof. repeat split; vm_compute; reflexivity. Qed.

(** ** Shadowing: the closest link wins *)














(** ** Further properties of the module *)

(** *** Identifiers *)

Lemma matches_Void (s : string) : Regex.matches Regex.Void s = false.
Proof. induction s as [|c s IH]; [reflexivity | exact IH]. Qed.

Lemma matches_Alt (s : string) :
  forall r1 r2 : Regex.re,
    Regex.matches (Regex.Alt r1 r2) s
    = Regex.matches r1 s || Regex.matches r2 s.
Proof.
  induction s as [|c s IH]; intros r1 r2; [reflexivity|].
  cbn [Regex.matches Regex.deriv]. apply IH.
Qed.

Lemma matches_Seq_Void (s : string) (r : Regex.re) :
  Regex.matches (Regex.Seq Regex.Void r) s = false.
Proof. induction s as [|c s IH]; [reflexivity | exact IH]. Qed.

Lemma matches_Seq_Eps (s : string) (r : Regex.re) :
  Regex.matches (Regex.Seq Regex.Eps r) s = Regex.matches r s.
Proof.
  destruct s as [|c s]; [reflexivity|].
  cbn [Regex.matches Regex.deriv Regex.nullable].
  rewrite matches_Alt, matches_Seq_Void. reflexivity.
Qed.

Lemma matches_Star_Cls (p : ascii -> bool) (s : string) :
  Regex.matches (Regex.Star (Regex.Cls p)) s = allChars p s.
Proof.
  induction s as [|c s IH]; [reflexivity|].
  cbn [Regex.matches Regex.deriv allChars].
  destruct (p c); [rewrite matches_Seq_Eps; exact IH | apply matches_Seq_Void].
Qed.

Lemma isIdentifier_identifierShaped (name : string) :
  isIdentifier name = identifierShaped name.
Proof.
  unfold isIdentifier, IDENTIFIER_REGEX.
  destruct name as [|c rest]; [reflexivity|].
  cbn [Regex.matches Regex.deriv Regex.nullable identifierShaped].
  destruct (is_ident_start c); simpl.
  - rewrite matches_Seq_Eps. apply matches_Star_Cls.
  - apply matches_Seq_Void.
Qed.

(** X1: The anchored, case-insensitive pattern accepts exactly the non-empty
    strings that start with an ASCII letter, [$] or [_] and go on with
    ASCII letters, digits, [$] and [_]. *)
Theorem isIdentifier_spec (name : string) :
  isIdentifier name = true <->
  exists c rest,
    name = String c rest /\ is_ident_start c = true /\
    allChars is_ident_part rest = true.
Proof.
  rewrite isIdentifier_identifierShaped. destruct name as [|c rest]; simpl.
  - split; [discriminate | intros (c & rest & H & _); discriminate].
  - rewrite andb_true_iff. split.
    + intros [H1 H2]. exists c, rest. tauto.
    + intros (c' & rest' & [= <- <-] & H1 & H2). tauto.
Qed.

(** *** Falsy targets and the forbidden prototypes *)

(** X5: [promisifyAll] on undefined, null, another falsy value, or one of
    [Array.prototype], [Function.prototype], [Object.prototype] does
    nothing, whatever the filter and promisifier: it completes normally and
    the heap is as it was. *)
Theorem promisifyAll_falsy_or_forbidden (obj : value) (opts : options)
  (sfx : string) (h : heap) :
  suffix opts = VStr sfx -> isIdentifier sfx = true ->
  toBoolean obj && negb (includes FORBIDDEN_PROTOTYPES obj) = false ->
  promisifyAll obj opts h = (Ok VUndefined, h).
Proof.
  intros Hs Hid Hg. rewrite (promisifyAll_string _ _ _ Hs), Hid.
  pose proof (inheritedDataKeys_guard_false h obj Hg) as Hk.
  unfold bind at 1, lift. rewrite Hk. cbn [forEach]. unfold bind at 1, ret.
  apply internalPromisifyAll_no_keys. assumption.
Qed.

Lemma promisifyAll_falsy_or_forbidden_witness :
  promisifyAll VNull defaultOptions heap_foo = (Ok VUndefined, heap_foo) /\
  promisifyAll (VObj ObjectPrototype) defaultOptions heap_foo
  = (Ok VUndefined, heap_foo).
Proof.
  split.
  - apply (promisifyAll_falsy_or_forbidden VNull defaultOptions "Async"
             heap_foo eq_refl); reflexivity.
  - apply (promisifyAll_falsy_or_forbidden (VObj ObjectPrototype)
             defaultOptions "Async" heap_foo eq_refl); reflexivity.
Defined.

(** X6: Without a promisifier, [promisifyAll] on any target leaves the three
    forbidden prototypes exactly as they were, also when they are reached
    as the prototype of a class-like member. *)
Theorem promisifyAll_keeps_forbidden_prototypes (obj : value)
  (opts : options) (sfx : string) (h h' : heap) (r : res value)
  (l : loc) (o : object) :
  promisifier opts = None ->
  suffix opts = VStr sfx ->
  promisifyAll obj opts h = (r, h') ->
  includes FORBIDDEN_PROTOTYPES (VObj l) = true ->
  h !! l = Some o ->
  h' !! l = Some o.
Proof.
  intros Hp Hs Hrun Hf.
  pose proof (promisifyAll_passes _ _ _ _ _ _ Hp Hs Hrun) as Hpass.
  clear Hrun. induction Hpass as [h|h h1 h2 (tgt & Inv & Hnone) _ IH];
    intros Hl; [assumption|].
  apply IH.
  assert (Hcase : tgt = VObj l \/ tgt <> VObj l).
  { destruct tgt as [| |b|z| |s| |l0]; try (right; discriminate).
    destruct (decide (l0 = l)) as [->|Hne]; [left; reflexivity|].
    right. congruence. }
  destruct Hcase as [->|Hne].
  - rewrite Hnone; [assumption|].
    apply inheritedDataKeys_guard_false. cbn [toBoolean andb]. rewrite Hf. reflexivity.
  - destruct Inv as (_ & Hother & _). apply Hother; assumption.
Qed.

Lemma promisifyAll_keeps_forbidden_prototypes_witness :
  snd (promisifyAll (VObj 13) defaultOptions heap_class) !! ObjectPrototype
  = Some (plainObject [] VNull).
Proof.
  apply (promisifyAll_keeps_forbidden_prototypes (VObj 13) defaultOptions
           "Async" heap_class _
           (fst (promisifyAll (VObj 13) defaultOptions heap_class))
           ObjectPrototype _ eq_refl eq_refl (surjective_pairing _)).
  - reflexivity.
  - reflexivity.
Defined.

(** *** What bulk conversion adds *)




(** X8: A completed pass installs every eligible key: unless the target
    refuses the assignment, it then holds a marked adapter at
    [key ++ suffix]. *)
Theorem internalPromisifyAll_installs_eligible (obj : value) (sfx : string)
  (flt : option filterFn) (m : bool) (h h1 : heap) (v : value)
  (keys : list string) (key : string) :
  internalPromisifyAll obj sfx flt None m h = (Ok v, h1) ->
  getFunctionsToPromisify h obj sfx None = Ok keys ->
  key ∈ keys ->
  setBlocked h obj (String.append key sfx) = false ->
  exists l o1 w,
    obj = VObj l /\ h1 !! l = Some o1 /\
    assoc (PStr (String.append key sfx)) (props o1) = Some (Data w true) /\
    adapterAt h1 w.
Proof.
  unfold internalPromisifyAll. unfold bind at 1, lift.
  intros Hrun Hkeys Hin Hnb. rewrite Hkeys in Hrun. unfold bind in Hrun.
  destruct (forEach keys (installKey obj sfx None m) h) as [[[]|e] h'] eqn:Hloop;
    [|discriminate].
  injection Hrun as _ <-.
  assert (Helig : forall k, k ∈ keys ->
            shouldPromisify h k sfx obj None = Ok true).
  { intros k Hk. eapply (filterKeys_true _ _ _ Hkeys). assumption. }
  destruct (forEach_installKey_done sfx obj h m keys Helig h h'
              (passInv_refl _ _ _) Hloop) as [_ Hdone].
  destruct (Hdone key Hin)
    as [Hb|(l & oc & -> & Hc & key0 & a & oa & _ & _ & _ & Hdc & _ & Ha & Hoa)];
    [congruence|].
  exists l, oc, (VObj a). repeat (split; [first [reflexivity|assumption]|]).
  exists a, oa. split; [reflexivity|]. split; [assumption | apply Hoa].
Qed.

Lemma internalPromisifyAll_installs_eligible_witness :
  exists l o1 w,
    VObj 8 = VObj l /\
    snd (internalPromisifyAll (VObj 8) "Async" None None false heap_foo) !! l
    = Some o1 /\
    assoc (PStr (String.append "foo" "Async")) (props o1) = Some (Data w true) /\
    adapterAt (snd (internalPromisifyAll (VObj 8) "Async" None None false heap_foo)) w.
Proof.
  refine (internalPromisifyAll_installs_eligible (VObj 8) "Async" None false
            heap_foo _ VUndefined ["foo"] "foo" _ _ _ _).
  - vm_compute. reflexivity.
  - vm_compute. reflexivity.
  - constructor.
  - reflexivity.
Defined.

(** *** Adapters are marked, and are never converted or recursed into *)

Lemma promisifiedFunction_source_no_this_assignment :
  Regex.test THIS_ASSIGNMENT_PATTERN promisifiedFunction_source = false.
Proof. vm_compute. reflexivity. Qed.

(** X11: [promisifyFunction] allocates without touching any existing object;
    the function it returns is callable and carries the marker, and the
    class-likeness test rejects it. *)
Theorem promisifyFunction_marked_not_class (fn ctx : value) (m : bool)
  (key : option string) (h : heap) :
  fst (promisifyFunction fn ctx m key h) = Ok (VObj (length h)) /\
  (forall l o, h !! l = Some o ->
               snd (promisifyFunction fn ctx m key h) !! l = Some o) /\
  typeof_function (snd (promisifyFunction fn ctx m key h)) (VObj (length h))
  = true /\
  isPromisified (snd (promisifyFunction fn ctx m key h)) (VObj (length h))
  = Ok (VBool true) /\
  isClass (snd (promisifyFunction fn ctx m key h)) (VObj (length h)) = false.
Proof.
  destruct (adapterObject_fresh fn ctx m key h) as (a & p & Heq & Ha & _ & Hp).
  cbn [promisifyFunction fst snd].
  set (fo := mkObject _ (VObj FunctionPrototype) true _ _ None).
  set (po := mkObject _ (VObj ObjectPrototype) true None "" None).
  assert (Hf : (h ++ [fo; po])%list !! length h = Some fo).
  { rewrite lookup_app_r by lia. rewrite Nat.sub_diag. reflexivity. }
  assert (Hpo : (h ++ [fo; po])%list !! S (length h) = Some po).
  { rewrite lookup_app_r by lia.
    replace (S (length h) - length h) with 1 by lia. reflexivity. }
  split; [reflexivity|]. split; [|split; [|split]].
  - intros l o Hl. rewrite lookup_app_l; [assumption|].
    eapply lookup_lt_Some; eassumption.
  - unfold typeof_function. rewrite Hf. reflexivity.
  - rewrite isPromisified_object, lookupChain_S_obj. unfold ownDesc.
    rewrite Hf. reflexivity.
  - unfold isClass, isClass_try, typeof_function, sourceText.
    rewrite Hf. cbn [call source fo].
    unfold Get. cbn [chainBound]. rewrite lookupChain_S_obj. unfold ownDesc.
    rewrite Hf. cbn [props fo assoc pkey_eqb String.eqb Ascii.eqb Bool.eqb readDesc].
    cbn [getOwnPropertyNames]. rewrite Hpo.
    rewrite promisifiedFunction_source_no_this_assignment. reflexivity.
Qed.

(** X10: Whatever the filter, [shouldPromisify] refuses a key whose value is
    not a function or carries the marker, and a key that has an accessor
    or a marked value at [key ++ suffix]. *)
Theorem shouldPromisify_refuses (h : heap) (key sfx : string) (obj : value)
  (flt : option filterFn) (fn : value) :
  Get h obj (PStr key) = Ok fn ->
  (typeof_function h fn = false \/
   (exists m, isPromisified h fn = Ok m /\ toBoolean m = true) \/
   (exists m d,
       isPromisified h fn = Ok m /\
       getOwnPropertyDescriptor h obj (String.append key sfx) = Ok (Some d) /\
       (hasGetOrSet d = true \/
        exists m', isPromisified h (descValue d) = Ok m' /\
                   toBoolean m' = true))) ->
  shouldPromisify h key sfx obj flt = Ok false.
Proof.
  intros Hget Hc. unfold shouldPromisify. rewrite Hget.
  destruct (typeof_function h fn); [|reflexivity]. cbn [negb].
  destruct Hc as [Hty|[(m & Hm & Ht)|(m & d & Hm & Hd & Hs)]];
    [discriminate | rewrite Hm, Ht; reflexivity |].
  rewrite Hm. destruct (toBoolean m); [reflexivity|].
  unfold hasPromisified. rewrite Hd.
  destruct Hs as [Hgs|(m' & Hm' & Ht')].
  - rewrite Hgs. reflexivity.
  - destruct (hasGetOrSet d); [reflexivity|]. rewrite Hm', Ht'. reflexivity.
Qed.

Lemma shouldPromisify_refuses_witness :
  shouldPromisify (snd (promisifyAll (VObj 8) defaultOptions heap_foo))
    "fooAsync" "Async" (VObj 8) (Some (fun _ _ _ _ => VBool true))
  = Ok false.
Proof.
  apply (shouldPromisify_refuses
           (snd (promisifyAll (VObj 8) defaultOptions heap_foo))
           "fooAsync" "Async" (VObj 8) _ (VObj 9)).
  - vm_compute. reflexivity.
  - right. left. exists (VBool true). split; [vm_compute|]; reflexivity.
Defined.

(** *** A nullish sibling *)

Lemma filterKeys_err (p : string -> res bool) (keys : list string)
  (k : string) (e : exn) :
  k ∈ keys -> p k = Err e -> exists e', filterKeys p keys = Err e'.
Proof.
  induction keys as [|key rest IH]; intros Hin Hp.
  - apply elem_of_nil in Hin. contradiction.
  - simpl. destruct (p key) as [b|e0] eqn:Hk; [|eauto].
    apply elem_of_cons in Hin as [->|Hin]; [congruence|].
    destruct (IH Hin Hp) as [e' ->]. eauto.
Qed.

(** X9: If a discovered key holds an unmarked function and the target has a
    data property [key ++ suffix] whose value is undefined or null, the
    eligibility test throws a TypeError, and the pass throws before it
    installs anything: the heap is as it was. *)
Theorem internalPromisifyAll_nullish_sibling (obj : value) (sfx : string)
  (flt : option filterFn) (pf : option promisifierFn) (mA : bool) (h : heap)
  (key : string) (fn m : value) (d : desc) :
  key ∈ inheritedDataKeys h obj ->
  Get h obj (PStr key) = Ok fn ->
  typeof_function h fn = true ->
  isPromisified h fn = Ok m -> toBoolean m = false ->
  getOwnPropertyDescriptor h obj (String.append key sfx) = Ok (Some d) ->
  hasGetOrSet d = false ->
  descValue d = VUndefined \/ descValue d = VNull ->
  shouldPromisify h key sfx obj None = Err TypeError /\
  exists e, internalPromisifyAll obj sfx flt pf mA h = (Err e, h).
Proof.
  intros Hin Hget Hty Hm Hmf Hd Hgs Hv.
  assert (Hs : shouldPromisify h key sfx obj None = Err TypeError).
  { unfold shouldPromisify. rewrite Hget, Hty, Hm, Hmf. cbn [negb].
    unfold hasPromisified. rewrite Hd, Hgs.
    destruct Hv as [-> | ->]; reflexivity. }
  split; [exact Hs|].
  unfold internalPromisifyAll, bind, lift, getFunctionsToPromisify.
  destruct (filterKeys_err (fun k => shouldPromisify h k sfx obj None)
              _ key TypeError Hin Hs) as [e' ->].
  eauto.
Qed.

Lemma internalPromisifyAll_nullish_sibling_witness :
  shouldPromisify heap_foo_undefined "foo" "Async" (VObj 8) None
  = Err TypeError /\
  exists e,
    internalPromisifyAll (VObj 8) "Async" None None false heap_foo_undefined
    = (Err e, heap_foo_undefined).
Proof.
  refine (internalPromisifyAll_nullish_sibling (VObj 8) "Async" None None
            false heap_foo_undefined "foo" (VObj 7) VUndefined
            (Data VUndefined true) _ _ _ _ _ _ _ _).
  - vm_compute. constructor.
  - vm_compute. reflexivity.
  - reflexivity.
  - vm_compute. reflexivity.
  - reflexivity.
  - reflexivity.
  - reflexivity.
  - left. reflexivity.
Defined.

(** *** Discovery on an object without inherited candidates *)





(** *** The context of an adapter *)

Lemma withCall_id (o : object) (c : fcode) :
  call o = Some c -> withCall o c = o.
Proof. destruct o. simpl. intros ->. reflexivity. Qed.

(** X15: An adapter built with a fixed context and no lookup key applies the
    wrapped function to that context whatever the receiver, and the call
    leaves its captured variables as they were: every later call does the
    same. *)
Theorem bindCall_fixed_context_stable (h : heap) (g : loc) (o : object)
  (fn ctx this : value) (m : bool) :
  h !! g = Some o ->
  call o = Some (Promisified fn ctx m None) ->
  value_eqb ctx VUseThis = false ->
  bindCall g this h = (Ok (fn, ctx), h).
Proof.
  intros Hg Hc Hctx. rewrite (bindCall_fixed_context h g o fn ctx this m Hg Hc Hctx).
  rewrite (withCall_id _ _ Hc). rewrite list_insert_id by assumption.
  reflexivity.
Qed.

Lemma bindCall_fixed_context_stable_witness :
  bindCall 10 (VObj 9) heap_fixed_context
  = (Ok (VObj 7, VObj 8), heap_fixed_context).
Proof.
  eapply (bindCall_fixed_context_stable heap_fixed_context 10 _
            (VObj 7) (VObj 8) (VObj 9) false).
  - vm_compute. reflexivity.
  - reflexivity.
  - reflexivity.
Defined.

Lemma bindCall_first_receiver_sticks_witness :
  fst (bindCall 10 (VObj 8) heap_two_receivers_promisified)
  = Ok (VObj 7, VObj 8) /\
  fst (bindCall 10 (VObj 9)
         (snd (bindCall 10 (VObj 8) heap_two_receivers_promisified)))
  = Ok (VObj 7, VObj 8).
Proof.
  eapply (bindCall_first_receiver_sticks heap_two_receivers_promisified 10 _
            (VObj 7) (VObj 8) (VObj 9) false).
  - vm_compute. reflexivity.
  - reflexivity.
  - reflexivity.
Defined.

Lemma promisifyAll_invalid_suffix_witness :
  promisifyAll (VObj 8) (mkOptions VNull false (VStr "1bad") None None) heap_foo
  = (Err (RangeError suffix_message), heap_foo).
Proof.
  apply (promisifyAll_invalid_suffix (VObj 8)
           (mkOptions VNull false (VStr "1bad") None None) heap_foo).
  intros s H. injection H as <-. reflexivity.
Defined.

(** *** The default filter *)

Lemma charAt0_underscore (c : ascii) (rest : string) :
  String.eqb (charAt0 (String c rest)) "_" = Ascii.eqb c "_".
Proof.
  cbn [charAt0 String.eqb]. destruct (Ascii.eqb c "_"); reflexivity.
Qed.

(** X2: The default filter accepts exactly the names, other than
    ["constructor"], that start with an ASCII letter or [$] and go on with
    ASCII letters, digits, [$] and [_]; so not the empty name, and no name
    starting with an underscore or a digit. *)
Theorem defaultFilter_spec (name : string) :
  defaultFilter name
  = match name with
    | EmptyString => false
    | String c rest =>
        (is_letter c || Ascii.eqb c "$")
        && allChars is_ident_part rest
        && negb (String.eqb name "constructor")
    end.
Proof.
  unfold defaultFilter. rewrite isIdentifier_identifierShaped.
  destruct name as [|c rest]; [reflexivity|].
  rewrite charAt0_underscore. cbn [identifierShaped]. unfold is_ident_start.
  destruct (Ascii.eqb_spec c "_") as [->|Hne].
  - cbn. rewrite !andb_false_r. reflexivity.
  - rewrite orb_false_r, andb_true_r. reflexivity.
Qed.

(** *** Functions without a prototype *)

(** X12: A callable whose [prototype] property reads undefined or null (an
    arrow function, a method) makes the inspection throw; the exception is
    swallowed and the function is not class-like, whatever its text and its
    own properties. *)
Theorem isClass_without_prototype (h : heap) (fn p : value) :
  typeof_function h fn = true ->
  Get h fn (PStr "prototype") = Ok p ->
  p = VUndefined \/ p = VNull ->
  isClass_try h fn = Err TypeError /\ isClass h fn = false.
Proof.
  intros Hty Hget Hp.
  assert (He : isClass_try h fn = Err TypeError).
  { unfold isClass_try. rewrite Hty, Hget. destruct Hp as [-> | ->]; reflexivity. }
  split; [exact He|]. unfold isClass. rewrite He. reflexivity.
Qed.

Lemma isClass_without_prototype_witness :
  isClass_try heap_class (VObj 9) = Err TypeError /\
  isClass heap_class (VObj 9) = false.
Proof.
  apply (isClass_without_prototype heap_class (VObj 9) VUndefined).
  - reflexivity.
  - vm_compute. reflexivity.
  - left. reflexivity.
Defined.

(** *** A promisifier that does not call the thunk *)

Lemma setProp_length (obj : value) (k : string) (v : value) (h h' : heap)
  (r : res unit) :
  setProp obj k v h = (r, h') -> length h' = length h.
Proof.
  intros H. destruct (setProp_spec _ _ _ _ _ _ H)
    as [[_ ->]|(_ & l & o & ps & _ & _ & _ & -> & _)]; [reflexivity|].
  apply length_insert.
Qed.

Section PurePromisifier.

Variable f : value -> value.
Variable p : promisifierFn.
Hypothesis p_pure : forall fn thunk, p fn thunk = ret (f fn).

Lemma installKey_pure_length (obj : value) (sfx : string) (m : bool)
  (key : string) (h h' : heap) (r : res unit) :
  installKey obj sfx (Some p) m key h = (r, h') -> length h' = length h.
Proof.
  unfold installKey, bind, lift.
  destruct (Get h obj (PStr key)) as [fn|e]; [|intros [= _ <-]; reflexivity].
  rewrite p_pure. unfold ret. apply setProp_length.
Qed.

Lemma forEach_installKey_pure_length (obj : value) (sfx : string) (m : bool)
  (keys : list string) :
  forall (h h' : heap) (r : res unit),
    forEach keys (installKey obj sfx (Some p) m) h = (r, h') ->
    length h' = length h.
Proof.
  induction keys as [|key rest IH]; intros h h' r; simpl.
  - intros [= _ <-]. reflexivity.
  - unfold bind.
    destruct (installKey obj sfx (Some p) m key h) as [[[]|e] h1] eqn:Hs.
    + intros Hr. rewrite (IH _ _ _ Hr). eapply installKey_pure_length; eassumption.
    + intros [= _ <-]. eapply installKey_pure_length; eassumption.
Qed.

Lemma internalPromisifyAll_pure_length (obj : value) (sfx : string)
  (flt : option filterFn) (m : bool) (h h' : heap) (r : res value) :
  internalPromisifyAll obj sfx flt (Some p) m h = (r, h') ->
  length h' = length h.
Proof.
  unfold internalPromisifyAll. unfold bind at 1, lift.
  destruct (getFunctionsToPromisify h obj sfx None) as [keys|e];
    [|intros [= _ <-]; reflexivity].
  unfold bind.
  destruct (forEach keys (installKey obj sfx (Some p) m) h) as [[[]|e] h1] eqn:Hl;
    intros [= _ <-]; eapply forEach_installKey_pure_length; eassumption.
Qed.

Lemma promisifyClass_pure_length (obj : value) (sfx : string)
  (flt : option filterFn) (m : bool) (key : string) (h h' : heap)
  (r : res unit) :
  promisifyClass obj sfx flt (Some p) m key h = (r, h') ->
  length h' = length h.
Proof.
  unfold promisifyClass. unfold bind at 1, lift.
  destruct (Get h obj (PStr key)) as [fn|e]; [|intros [= _ <-]; reflexivity].
  unfold bind at 1.
  destruct (recursesInto h key fn); [|intros [= _ <-]; reflexivity].
  unfold bind at 1.
  destruct (Get h fn (PStr "prototype")) as [q|e];
    [|intros [= _ <-]; reflexivity].
  unfold bind at 1.
  destruct (internalPromisifyAll q sfx flt (Some p) m h) as [[v1|e1] h1] eqn:H1;
    [|intros [= _ <-]; eapply internalPromisifyAll_pure_length; eassumption].
  unfold bind.
  destruct (internalPromisifyAll fn sfx flt (Some p) m h1) as [[v2|e2] h2] eqn:H2;
    intros [= _ <-];
    rewrite (internalPromisifyAll_pure_length _ _ _ _ _ _ _ H2);
    eapply internalPromisifyAll_pure_length; eassumption.
Qed.

Lemma forEach_promisifyClass_pure_length (obj : value) (sfx : string)
  (flt : option filterFn) (m : bool) (keys : list string) :
  forall (h h' : heap) (r : res unit),
    forEach keys (promisifyClass obj sfx flt (Some p) m) h = (r, h') ->
    length h' = length h.
Proof.
  induction keys as [|key rest IH]; intros h h' r; simpl.
  - intros [= _ <-]. reflexivity.
  - unfold bind.
    destruct (promisifyClass obj sfx flt (Some p) m key h) as [[[]|e] h1] eqn:Hs.
    + intros Hr. rewrite (IH _ _ _ Hr).
      eapply promisifyClass_pure_length; eassumption.
    + intros [= _ <-]. eapply promisifyClass_pure_length; eassumption.
Qed.

End PurePromisifier.

(** X17: The thunk is the only way to the default adapter: with a promisifier
    that returns a value computed from the original function and never
    calls the thunk, [promisifyAll] allocates nothing. *)
Theorem promisifyAll_thunk_is_lazy (f : value -> value) (p : promisifierFn)
  (obj : value) (opts : options) (h h' : heap) (r : res value) :
  (forall fn thunk, p fn thunk = ret (f fn)) ->
  promisifier opts = Some p ->
  promisifyAll obj opts h = (r, h') ->
  length h' = length h.
Proof.
  intros Hpure Hp. unfold promisifyAll. rewrite Hp.
  destruct (orDefault (suffix opts) (VStr "Async")) as [| |b|z| |sfx| |l];
    try (intros [= _ <-]; reflexivity).
  destruct (isIdentifier sfx); [|intros [= _ <-]; reflexivity].
  unfold bind at 1, lift. unfold bind at 1.
  destruct (forEach _ _ h) as [[[]|e] h1] eqn:Hloop.
  - intros Hr.
    rewrite (internalPromisifyAll_pure_length f p Hpure _ _ _ _ _ _ _ Hr).
    eapply forEach_promisifyClass_pure_length; eassumption.
  - intros [= _ <-]. eapply forEach_promisifyClass_pure_length; eassumption.
Qed.

Lemma promisifyAll_thunk_is_lazy_witness :
  length (snd (promisifyAll (VObj 8)
                 (options_with_promisifier promisifier_identity) heap_foo))
  = length heap_foo.
Proof.
  apply (promisifyAll_thunk_is_lazy (fun fn => fn) promisifier_identity
           (VObj 8) (options_with_promisifier promisifier_identity) heap_foo _
           (fst (promisifyAll (VObj 8)
                   (options_with_promisifier promisifier_identity) heap_foo))).
  - intros fn thunk. reflexivity.
  - reflexivity.
  - apply surjective_pairing.
Defined.

Lemma promisifyAll_result_witness :
  match fst (promisifyAll (VObj 13) defaultOptions heap_class) with
  | Ok v => v
  | Err _ => VNull
  end = VUndefined.
Proof.
  apply (promisifyAll_result (VObj 13) defaultOptions heap_class
           (snd (promisifyAll (VObj 13) defaultOptions heap_class))).
  vm_compute. reflexivity.
Defined.
